(** * Calculator-and-Binary-Converter: the expression evaluator and the
      number converter, verified against their specification

    The development embeds the two Python sources of the repository:

    - [Main.py]: [SafeEvaluator] (name table, node whitelist, [evaluate]),
      [NumberConverter] ([BASES], [validate_input], [convert]), and the code
      that calls them: [HistoryManager] ([add], [get_recent], [clear],
      [save]), [ConverterFrame._convert] and [CalculatorFrame.evaluate] with
      [_load_history];
    - [Reservation.py]: the older variant ([ALLOWED_NAMES], [ALLOWED_NODES],
      [safe_eval], [ConverterFrame.convert], [ConverterFrame.to_decimal],
      [ConverterFrame.from_decimal]).

    Both evaluators delegate parsing and evaluation to the Python host
    ([ast.parse], [ast.walk], [compile]/[eval], the [math] module).  The host
    is modelled here as CPython 3.9 on IEEE-754 binary64 floats:

    - [str] is a sequence of Unicode code points ([list N]);
    - [int] is [Z]; [float] is Rocq's primitive binary64 [float]; [complex] is
      a pair of floats;
    - the result of a host operation is an [outcome]: a value, a raised
      exception, or [OutsideModel] where the model does not describe the host
      (for instance the parts of Python's grammar that are not modelled);
    - the parser is an argument of the evaluators, so that the statements
      quantified over all inputs hold for every parser; [cpython.parse] is the
      model of [ast.parse(_, mode='eval')] used for concrete inputs;
    - the platform's C mathematics library ([pow], [hypot], [atan2], ...) is
      an argument as well ([Libm]).

    Host resource limits (recursion depth, memory, the integer/string
    conversion digit limit) are not modelled. *)

From Stdlib Require Import ZArith NArith List String Ascii Bool Lia.
From Stdlib Require Import Floats Uint63.
From stdpp Require Import base option list gmap.

Set Warnings "-register-all".
Local Open Scope Z_scope.

(** ** Python strings *)

Abbreviation pystr := (list N).

Module utf8.
(** Decoding of a UTF-8 byte sequence into code points, as Python does for
    the literals of a source file. *)
Fixpoint decode (bs : list N) : pystr :=
  match bs with
  | [] => []
  | b0 :: r0 =>
    if (b0 <? 0x80)%N then b0 :: decode r0
    else if (b0 <? 0xE0)%N then
      match r0 with
      | b1 :: r1 => (N.land b0 0x1F * 64 + N.land b1 0x3F)%N :: decode r1
      | [] => [b0]
      end
    else if (b0 <? 0xF0)%N then
      match r0 with
      | b1 :: b2 :: r2 =>
        (N.land b0 0x0F * 4096 + N.land b1 0x3F * 64 + N.land b2 0x3F)%N
          :: decode r2
      | _ => b0 :: decode r0
      end
    else
      match r0 with
      | b1 :: b2 :: b3 :: r3 =>
        (N.land b0 0x07 * 262144 + N.land b1 0x3F * 4096
         + N.land b2 0x3F * 64 + N.land b3 0x3F)%N :: decode r3
      | _ => b0 :: decode r0
      end
  end.
End utf8.

(** A Python string literal, written as in the source file. *)
Definition py (s : string) : pystr :=
  utf8.decode (N_of_ascii <$> list_ascii_of_string s).
Arguments py s%_string.

Module str.
(** [str.isspace] on one code point: the code points CPython's
    [_PyUnicode_IsWhitespace] accepts. *)
Definition isspace (c : N) : bool :=
  ((0x09 <=? c) && (c <=? 0x0D) || (0x1C <=? c) && (c <=? 0x20)
   || (c =? 0x85) || (c =? 0xA0) || (c =? 0x1680)
   || (0x2000 <=? c) && (c <=? 0x200A)
   || (c =? 0x2028) || (c =? 0x2029) || (c =? 0x202F) || (c =? 0x205F)
   || (c =? 0x3000))%N.

Fixpoint lstrip (s : pystr) : pystr :=
  match s with
  | c :: r => if isspace c then lstrip r else s
  | [] => []
  end.

Definition rstrip (s : pystr) : pystr := rev (lstrip (rev s)).

(** [s.strip()] *)
Definition strip (s : pystr) : pystr := rstrip (lstrip s).

Fixpoint startswith (s p : pystr) : bool :=
  match p, s with
  | [], _ => true
  | a :: p', b :: s' => (a =? b)%N && startswith s' p'
  | _ :: _, [] => false
  end.

Fixpoint replace_from (skip : nat) (old new s : pystr) : pystr :=
  match s with
  | [] => []
  | c :: r =>
    match skip with
    | S k => replace_from k old new r
    | O =>
      if startswith s old
      then new ++ replace_from (length old - 1) old new r
      else c :: replace_from 0 old new r
    end
  end.

(** [s.replace(old, new)]: every non-overlapping occurrence, left to
    right. *)
Definition replace (s old new : pystr) : pystr :=
  match old with
  | [] => new ++ flat_map (fun c => c :: new) s
  | _ :: _ => replace_from 0 old new s
  end.

(** [s.upper()] on ASCII letters; the sources apply it to the digits
    [hex] renders only. *)
Definition upper (s : pystr) : pystr :=
  (fun c => if (0x61 <=? c) && (c <=? 0x7A) then c - 0x20 else c)%N <$> s.

(** [s[n:]] *)
Definition slice_from (n : nat) (s : pystr) : pystr := drop n s.
End str.

(** ** Host values, exceptions and outcomes *)

Module ast.
(** The node classes of Python's [ast] module that occur in the sources'
    whitelists or in the trees of the modelled grammar. *)
Inductive cls :=
| Expression | Call | Name | Load | Store | Del | BinOp | UnaryOp | Num
| Constant | Add | Sub | Mult | Div | Mod | Pow | USub | UAdd | LShift
| RShift | BitXor | BitAnd | BitOr | FloorDiv | Tuple | List | Subscript
| Index | Slice | Attribute | MatMult | Invert | Not.

#[global] Instance cls_eq_dec : EqDecision cls.
Proof. solve_decision. Defined.
End ast.

(** Function objects reachable from the name tables. *)
Inductive function :=
| math_function (name : pystr)   (* getattr(math, name), a callable *)
| builtins_abs | builtins_round | builtins_pow | builtins_min | builtins_max.

Inductive value :=
| VInt (n : Z)
| VFloat (x : float)
| VComplex (re im : float)
| VStr (s : pystr)
| VTuple (vs : list value)
| VList (vs : list value)
| VFunction (f : function)
| VObject (descr : pystr).       (* any other host object *)

(** Exceptions.  The first three groups are raised by the sources, each with
    the message given; the last group is raised by the host. *)
Inductive exn :=
(* Main.py, SafeEvaluator.evaluate: all of class ValueError *)
| EmptyExpression                      (* "Empty expression" *)
| SyntaxErr                            (* "Syntax error: ..." *)
| UnsupportedOperation (c : ast.cls)   (* "Unsupported operation: <class>" *)
| UnknownName (id : pystr)             (* "Unknown function or constant: <id>" *)
| ComplexNotSupported                  (* "Complex numbers not supported" *)
(* Main.py, NumberConverter.convert: ValueError *)
| InvalidNumber (base_name : pystr)    (* "Invalid <base> number" *)
(* Reservation.py: all of class ValueError *)
| InvalidExpression                    (* "Invalid expression: ..." *)
| DisallowedExpression (c : ast.cls)   (* "Disallowed expression: <class>" *)
| NameNotAllowed (id : pystr)          (* "Use of name '<id>' is not allowed" *)
| UnknownSystem                        (* "Unknown input system" / "... output ..." *)
(* host *)
| SyntaxError                          (* class SyntaxError, from ast.parse *)
| ZeroDivisionError
| MathDomainError                      (* ValueError("math domain error") *)
| FactorialNegative                    (* ValueError("factorial() not defined for negative values") *)
| FactorialNotIntegral                 (* ValueError("factorial() only accepts integral values") *)
| NegativeShiftCount                   (* ValueError("negative shift count") *)
| EmptySequence                        (* ValueError("min() arg is an empty sequence") *)
| IntInvalidLiteral                    (* ValueError("invalid literal for int() ...") *)
| TypeError
| NameError (id : pystr)
| OverflowError
| IndexError
| KeyError (key : pystr).

Inductive outcome (A : Type) :=
| Return (a : A)
| Raise (e : exn)
| OutsideModel.
Arguments Return {A} a.
Arguments Raise {A} e.
Arguments OutsideModel {A}.

#[global] Instance outcome_bind : MBind outcome := fun A B f m =>
  match m with
  | Return a => f a
  | Raise e => Raise e
  | OutsideModel => OutsideModel
  end.

(** ** Abstract syntax trees, as [ast.parse(_, mode='eval')] builds them *)

Inductive expr_context := Load | Store | Del.

Inductive operator :=
| Add | Sub | Mult | MatMult | Div | Mod | Pow | LShift | RShift | BitOr
| BitXor | BitAnd | FloorDiv.

Inductive unaryop := Invert | Not | UAdd | USub.

(** Calls carry positional arguments only: keyword arguments are outside
    the modelled grammar. *)
Inductive expr :=
| Constant (v : value)
| Name (id : pystr) (ctx : expr_context)
| BinOp (l : expr) (op : operator) (r : expr)
| UnaryOp (op : unaryop) (operand : expr)
| Call (func : expr) (args : list expr)
| Attribute (v : expr) (attr : pystr) (ctx : expr_context)
| Subscript (v : expr) (slice : expr) (ctx : expr_context)
| Tuple (elts : list expr) (ctx : expr_context)
| List (elts : list expr) (ctx : expr_context).

Inductive ast_mod := Expression (body : expr).

(** A node of any of the syntactic categories, as [ast.walk] yields them. *)
Inductive node :=
| MOD (m : ast_mod)
| EXPR (e : expr)
| CTX (c : expr_context)
| OP (o : operator)
| UOP (u : unaryop).

(** [type(n)] *)
Definition class_of (n : node) : ast.cls :=
  match n with
  | MOD (Expression _) => ast.Expression
  | EXPR (Constant _) => ast.Constant
  | EXPR (Name _ _) => ast.Name
  | EXPR (BinOp _ _ _) => ast.BinOp
  | EXPR (UnaryOp _ _) => ast.UnaryOp
  | EXPR (Call _ _) => ast.Call
  | EXPR (Attribute _ _ _) => ast.Attribute
  | EXPR (Subscript _ _ _) => ast.Subscript
  | EXPR (Tuple _ _) => ast.Tuple
  | EXPR (List _ _) => ast.List
  | CTX Load => ast.Load
  | CTX Store => ast.Store
  | CTX Del => ast.Del
  | OP Add => ast.Add
  | OP Sub => ast.Sub
  | OP Mult => ast.Mult
  | OP MatMult => ast.MatMult
  | OP Div => ast.Div
  | OP Mod => ast.Mod
  | OP Pow => ast.Pow
  | OP LShift => ast.LShift
  | OP RShift => ast.RShift
  | OP BitOr => ast.BitOr
  | OP BitXor => ast.BitXor
  | OP BitAnd => ast.BitAnd
  | OP FloorDiv => ast.FloorDiv
  | UOP Invert => ast.Invert
  | UOP Not => ast.Not
  | UOP UAdd => ast.UAdd
  | UOP USub => ast.USub
  end.

(** [ast.iter_child_nodes]: the child nodes in the order of the class's
    [_fields]. *)
Definition iter_child_nodes (n : node) : list node :=
  match n with
  | MOD (Expression body) => [EXPR body]
  | EXPR (Constant _) => []
  | EXPR (Name _ ctx) => [CTX ctx]
  | EXPR (BinOp l op r) => [EXPR l; OP op; EXPR r]
  | EXPR (UnaryOp op operand) => [UOP op; EXPR operand]
  | EXPR (Call func args) => EXPR func :: (EXPR <$> args)
  | EXPR (Attribute v _ ctx) => [EXPR v; CTX ctx]
  | EXPR (Subscript v slice ctx) => [EXPR v; EXPR slice; CTX ctx]
  | EXPR (Tuple elts ctx) => (EXPR <$> elts) ++ [CTX ctx]
  | EXPR (List elts ctx) => (EXPR <$> elts) ++ [CTX ctx]
  | CTX _ | OP _ | UOP _ => []
  end.

Fixpoint expr_size (e : expr) : nat :=
  let sizes := fix sizes (es : list expr) : nat :=
    match es with
    | [] => O
    | e' :: es' => (expr_size e' + sizes es')%nat
    end in
  match e with
  | Constant _ => 1
  | Name _ _ => 2
  | BinOp l _ r => 2 + expr_size l + expr_size r
  | UnaryOp _ operand => 2 + expr_size operand
  | Call func args => 1 + expr_size func + sizes args
  | Attribute v _ _ => 2 + expr_size v
  | Subscript v slice _ => 2 + expr_size v + expr_size slice
  | Tuple elts _ => 2 + sizes elts
  | List elts _ => 2 + sizes elts
  end%nat.

(** The number of nodes [ast.walk] yields from [n]. *)
Definition node_size (n : node) : nat :=
  match n with
  | MOD (Expression body) => S (expr_size body)
  | EXPR e => expr_size e
  | CTX _ | OP _ | UOP _ => 1
  end.

(** [ast.walk]: breadth first, from a queue that starts with the node; each
    step pops the first node, appends its children and yields it. *)
Fixpoint walk_queue (fuel : nat) (todo : list node) : list node :=
  match fuel, todo with
  | S fuel', n :: rest => n :: walk_queue fuel' (rest ++ iter_child_nodes n)
  | _, _ => []
  end.

Definition walk (n : node) : list node := walk_queue (node_size n) [n].

(** ** Host numbers *)

(** The functions of the platform's C library that CPython's [float] and
    [complex] powers call.  Their error indicator is taken as C specifies it
    for the calls made here: a range error, which CPython reports as
    [OverflowError] exactly when the result is infinite. *)
Record Libm := {
  c_pow : float -> float -> float;
  c_hypot : float -> float -> float;
  c_atan2 : float -> float -> float;
  c_cos : float -> float;
  c_sin : float -> float
}.

Module pyfloat.
(** The binary64 value nearest to an integer (ties to even). *)
Definition nearest (n : Z) : float :=
  SF2Prim (binary_normalize prec emax n 0 false).

(** [float(n)] for an [int]: [OverflowError] when [n] is too large. *)
Definition of_int (n : Z) : outcome float :=
  let x := nearest n in
  if is_infinity x then Raise OverflowError else Return x.

(** The value of the literal [m / 10^k] (a digit string with [k] digits
    after the point): defined where both [m] and [10^k] are binary64 values,
    so that one correctly rounded division gives the nearest float. *)
Definition of_decimal (m : Z) (k : nat) : option float :=
  if (m <? 2 ^ 53) && (k <=? 22)%nat
  then Some (nearest m / nearest (10 ^ Z.of_nat k))%float
  else None.

(** [x.is_integer()]: finite and without fractional part. *)
Definition is_integer (x : float) : bool :=
  match Prim2SF x with
  | S754_zero _ => true
  | S754_finite _ m e => (0 <=? e) || (Z.pos m mod 2 ^ (- e) =? 0)
  | S754_infinity _ | S754_nan => false
  end.

(** [int(x)] for an [x] accepted by [is_integer]. *)
Definition to_int (x : float) : Z :=
  match Prim2SF x with
  | S754_finite s m e =>
    let a := if 0 <=? e then Z.pos m * 2 ^ e else Z.pos m / 2 ^ (- e) in
    if s then - a else a
  | _ => 0
  end.

(** CPython's [DOUBLE_IS_ODD_INTEGER]. *)
Definition is_odd_integer (x : float) : bool :=
  is_integer x && Z.odd (to_int x).

(** [float_pow] of floatobject.c on finite operands; non-finite operands
    are outside the model.  A negative base with a fractional exponent is
    handed to the complex power ([_Py_c_pow] on a real exponent). *)
Definition pow (libm : Libm) (iv iw : float) : outcome value :=
  if (iw =? 0)%float then Return (VFloat 1)
  else if negb (is_finite iv && is_finite iw) then OutsideModel
  else if (iv =? 0)%float then
    if (iw <? 0)%float then Raise ZeroDivisionError
    else Return (VFloat (if is_odd_integer iw then iv else 0))
  else if (iv <? 0)%float && negb (is_integer iw) then
    let vabs := c_hypot libm iv 0 in
    let len := c_pow libm vabs iw in
    let phase := (c_atan2 libm 0 iv * iw)%float in
    let re := (len * c_cos libm phase)%float in
    let im := (len * c_sin libm phase)%float in
    if is_infinity re || is_infinity im then Raise OverflowError
    else Return (VComplex re im)
  else
    let negate := (iv <? 0)%float && is_odd_integer iw in
    let iv := if (iv <? 0)%float then (- iv)%float else iv in
    if (iv =? 1)%float then Return (VFloat (if negate then (-1) else 1)%float)
    else
      let ix := c_pow libm iv iw in
      if is_infinity ix then Raise OverflowError
      else Return (VFloat (if negate then (- ix)%float else ix)).
End pyfloat.

Module pyint.
(** [n!] for [n = Z.of_nat k]. *)
Fixpoint fact (k : nat) : Z :=
  match k with
  | O => 1
  | S k' => Z.of_nat k * fact k'
  end.

(** [int.__truediv__]: the correctly rounded quotient; modelled where both
    operands are binary64 values, so that one float division gives it. *)
Definition true_divide (a b : Z) : outcome value :=
  if b =? 0 then Raise ZeroDivisionError
  else if (Z.abs a <=? 2 ^ 53) && (Z.abs b <=? 2 ^ 53)
  then Return (VFloat (pyfloat.nearest a / pyfloat.nearest b))
  else OutsideModel.
End pyint.

(** The numeric tower: [int], then [float], then [complex]. *)
Definition is_number (v : value) : bool :=
  match v with
  | VInt _ | VFloat _ | VComplex _ _ => true
  | _ => false
  end.

Definition is_complex (v : value) : bool :=
  match v with
  | VComplex _ _ => true
  | _ => false
  end.

(** [v == 0] for a number. *)
Definition is_zero_number (v : value) : bool :=
  match v with
  | VInt n => n =? 0
  | VFloat x => (x =? 0)%float
  | VComplex re im => (re =? 0)%float && (im =? 0)%float
  | _ => false
  end.

(** Conversion of an [int] or [float] operand to a C double. *)
Definition as_double (v : value) : outcome float :=
  match v with
  | VInt n => pyfloat.of_int n
  | VFloat x => Return x
  | _ => Raise TypeError
  end.

(** Conversion of a number to a C complex. *)
Definition as_complex (v : value) : outcome (float * float) :=
  match v with
  | VComplex re im => Return (re, im)
  | _ => x ← as_double v; Return (x, 0%float)
  end.

Definition int_binop (op : operator) (a b : Z) : outcome value :=
  match op with
  | Add => Return (VInt (a + b))
  | Sub => Return (VInt (a - b))
  | Mult => Return (VInt (a * b))
  | Div => pyint.true_divide a b
  | FloorDiv => if b =? 0 then Raise ZeroDivisionError else Return (VInt (a / b))
  | Mod => if b =? 0 then Raise ZeroDivisionError else Return (VInt (a mod b))
  | Pow =>
    if 0 <=? b then Return (VInt (a ^ b))
    else if a =? 0 then Raise ZeroDivisionError
    else OutsideModel
  | LShift => if b <? 0 then Raise NegativeShiftCount else Return (VInt (Z.shiftl a b))
  | RShift => if b <? 0 then Raise NegativeShiftCount else Return (VInt (Z.shiftr a b))
  | BitOr => Return (VInt (Z.lor a b))
  | BitXor => Return (VInt (Z.lxor a b))
  | BitAnd => Return (VInt (Z.land a b))
  | MatMult => Raise TypeError
  end.

Definition float_binop (libm : Libm) (op : operator) (a b : float)
  : outcome value :=
  match op with
  | Add => Return (VFloat (a + b))
  | Sub => Return (VFloat (a - b))
  | Mult => Return (VFloat (a * b))
  | Div => if (b =? 0)%float then Raise ZeroDivisionError else Return (VFloat (a / b))
  | FloorDiv | Mod => if (b =? 0)%float then Raise ZeroDivisionError else OutsideModel
  | Pow => pyfloat.pow libm a b
  | LShift | RShift | BitOr | BitXor | BitAnd | MatMult => Raise TypeError
  end.

Definition complex_binop (op : operator) (a b : float * float)
  : outcome value :=
  let '(ar, ai) := a in
  let '(br, bi) := b in
  match op with
  | Add => Return (VComplex (ar + br) (ai + bi))
  | Sub => Return (VComplex (ar - br) (ai - bi))
  | Mult => Return (VComplex (ar * br - ai * bi) (ar * bi + ai * br))
  | Div =>
    if (br =? 0)%float && (bi =? 0)%float then Raise ZeroDivisionError
    else OutsideModel
  | Pow => OutsideModel
  | FloorDiv | Mod | LShift | RShift | BitOr | BitXor | BitAnd | MatMult =>
    Raise TypeError
  end.

(** A binary operator applied to two values.  Operands that are not
    numbers (sequence concatenation and repetition, string formatting)
    are outside the model. *)
Definition binop (libm : Libm) (op : operator) (a b : value) : outcome value :=
  match a, b with
  | VInt x, VInt y => int_binop op x y
  | _, _ =>
    if negb (is_number a && is_number b) then OutsideModel
    else if is_complex a || is_complex b
    then x ← as_complex a; y ← as_complex b; complex_binop op x y
    else x ← as_double a; y ← as_double b; float_binop libm op x y
  end.

Definition unop (op : unaryop) (a : value) : outcome value :=
  match op, a with
  | USub, VInt n => Return (VInt (- n))
  | USub, VFloat x => Return (VFloat (- x))
  | USub, VComplex re im => Return (VComplex (- re) (- im))
  | UAdd, (VInt _ | VFloat _ | VComplex _ _) => Return a
  | Invert, VInt n => Return (VInt (Z.lnot n))
  | Invert, (VFloat _ | VComplex _ _) => Raise TypeError
  | _, _ => OutsideModel
  end.

(** ** The [math] module and the builtin functions of the name tables *)

Module math.
Definition pi : float := 0x1.921fb54442d18p+1%float.
Definition e : float := 0x1.5bf0a8b145769p+1%float.
Definition tau : float := 0x1.921fb54442d18p+2%float.

(** [dir(math)] *)
Definition dir : list pystr :=
  py <$> [ "__doc__"; "__loader__"; "__name__"; "__package__"; "__spec__";
           "acos"; "acosh"; "asin"; "asinh"; "atan"; "atan2"; "atanh";
           "ceil"; "comb"; "copysign"; "cos"; "cosh"; "degrees"; "dist";
           "e"; "erf"; "erfc"; "exp"; "expm1"; "fabs"; "factorial"; "floor";
           "fmod"; "frexp"; "fsum"; "gamma"; "gcd"; "hypot"; "inf";
           "isclose"; "isfinite"; "isinf"; "isnan"; "isqrt"; "lcm"; "ldexp";
           "lgamma"; "log"; "log10"; "log1p"; "log2"; "modf"; "nan";
           "nextafter"; "perm"; "pi"; "pow"; "prod"; "radians"; "remainder";
           "sin"; "sinh"; "sqrt"; "tan"; "tanh"; "tau"; "trunc"; "ulp"
         ]%string.

(** [getattr(math, name)] for a name of [dir]: the five constants are
    floats, the module's own attributes are opaque objects, every other
    name is a function. *)
Definition getattr (name : pystr) : value :=
  if bool_decide (name = py "pi") then VFloat pi
  else if bool_decide (name = py "e") then VFloat e
  else if bool_decide (name = py "tau") then VFloat tau
  else if bool_decide (name = py "inf") then VFloat infinity
  else if bool_decide (name = py "nan") then VFloat nan
  else if str.startswith name (py "__") then VObject name
  else VFunction (math_function name).

(** [math.sqrt]: CPython's [math_1] wrapper around C's [sqrt], which
    reports a NaN result for a non-NaN argument as a domain error. *)
Definition sqrt (args : list value) : outcome value :=
  match args with
  | [v] =>
    x ← as_double v;
    let r := PrimFloat.sqrt x in
    if is_nan r && negb (is_nan x) then Raise MathDomainError
    else if is_infinity r && is_finite x then Raise MathDomainError
    else Return (VFloat r)
  | _ => Raise TypeError
  end.

(** The integer part of [math.factorial].  The bound on the argument is C's
    [LONG_MAX], which is [2^31 - 1] or [2^63 - 1] by platform. *)
Definition factorial_int (n : Z) : outcome value :=
  if 2 ^ 63 <=? n then Raise OverflowError
  else if n <? 0 then Raise FactorialNegative
  else if n <? 2 ^ 31 then Return (VInt (pyint.fact (Z.to_nat n)))
  else OutsideModel.

(** [math.factorial]: an [int], or a [float] with an integral value. *)
Definition factorial (args : list value) : outcome value :=
  match args with
  | [VInt n] => factorial_int n
  | [VFloat x] =>
    if pyfloat.is_integer x then factorial_int (pyfloat.to_int x)
    else Raise FactorialNotIntegral
  | [VObject _] => OutsideModel
  | _ => Raise TypeError
  end.
End math.

Module builtins.
Definition abs (args : list value) : outcome value :=
  match args with
  | [VInt n] => Return (VInt (Z.abs n))
  | [VFloat x] => Return (VFloat (PrimFloat.abs x))
  | [VComplex _ _] | [VObject _] => OutsideModel
  | _ => Raise TypeError
  end.

(** [round] on an [int] without a digit count; the other cases are outside
    the model. *)
Definition round (args : list value) : outcome value :=
  match args with
  | [] => Raise TypeError
  | [VInt n] => Return (VInt n)
  | _ => OutsideModel
  end.

Definition pow (libm : Libm) (args : list value) : outcome value :=
  match args with
  | [a; b] => binop libm Pow a b
  | [_; _; _] => OutsideModel
  | _ => Raise TypeError
  end.

Fixpoint ints (vs : list value) : option (list Z) :=
  match vs with
  | [] => Some []
  | VInt n :: vs' => cons n <$> ints vs'
  | _ :: _ => None
  end.

(** [min] and [max] over [int]s (given as arguments, or as the elements of
    one tuple or list); comparisons that involve other types are outside
    the model. *)
Definition extremum (pick : Z -> Z -> Z) (args : list value) : outcome value :=
  let of_items (items : list value) : outcome value :=
    match ints items with
    | Some (n :: ns) => Return (VInt (foldl pick n ns))
    | Some [] => Raise EmptySequence
    | None => OutsideModel
    end in
  match args with
  | [] => Raise TypeError
  | [VTuple items] | [VList items] => of_items items
  | [VInt _] | [VFloat _] | [VComplex _ _] | [VFunction _] => Raise TypeError
  | [_] => OutsideModel
  | _ :: _ :: _ => of_items args
  end.
End builtins.

(** A call of the value [f] on evaluated arguments. *)
Definition call (libm : Libm) (f : value) (args : list value) : outcome value :=
  match f with
  | VFunction (math_function name) =>
    if bool_decide (name = py "sqrt") then math.sqrt args
    else if bool_decide (name = py "factorial") then math.factorial args
    else OutsideModel
  | VFunction builtins_abs => builtins.abs args
  | VFunction builtins_round => builtins.round args
  | VFunction builtins_pow => builtins.pow libm args
  | VFunction builtins_min => builtins.extremum Z.min args
  | VFunction builtins_max => builtins.extremum Z.max args
  | VObject _ => OutsideModel
  | _ => Raise TypeError
  end.

(** [seq[i]] on the items of a sequence: a negative index counts from the
    end. *)
Definition seq_item {A} (items : list A) (i : Z) : outcome A :=
  let n := Z.of_nat (length items) in
  let j := if i <? 0 then i + n else i in
  if (j <? 0) || (n <=? j) then Raise IndexError
  else match items !! Z.to_nat j with
       | Some x => Return x
       | None => Raise IndexError
       end.

(** [container[index]] with an [int] index; slices and other index types
    are outside the model. *)
Definition getitem (container index : value) : outcome value :=
  match container, index with
  | VTuple items, VInt i => seq_item items i
  | VList items, VInt i => seq_item items i
  | VStr s, VInt i => c ← seq_item s i; Return (VStr [c])
  | (VInt _ | VFloat _ | VComplex _ _ | VFunction _), _ => Raise TypeError
  | _, _ => OutsideModel
  end.

(** ** Evaluation of a compiled expression

    [eval(compile(node, '<safe>', 'eval'), {'__builtins__': {}}, locals)]:
    a name is looked up in [locals], then in the globals (whose only key is
    [__builtins__]), then in the empty builtins. *)

Section eval.
Variable libm : Libm.
Variable locals : gmap pystr value.

Definition load_name (id : pystr) : outcome value :=
  match locals !! id with
  | Some v => Return v
  | None =>
    if bool_decide (id = py "__builtins__") then Return (VObject (py "dict"))
    else Raise (NameError id)
  end.

Fixpoint eval_expr (e : expr) : outcome value :=
  let eval_list := fix eval_list (es : list expr) : outcome (list value) :=
    match es with
    | [] => Return []
    | e' :: es' => v ← eval_expr e'; vs ← eval_list es'; Return (v :: vs)
    end in
  match e with
  | Constant v => Return v
  | Name id Load => load_name id
  | BinOp l op r => a ← eval_expr l; b ← eval_expr r; binop libm op a b
  | UnaryOp op operand => a ← eval_expr operand; unop op a
  | Call func args => f ← eval_expr func; vs ← eval_list args; call libm f vs
  | Subscript v slice Load =>
    c ← eval_expr v; i ← eval_expr slice; getitem c i
  | Tuple elts Load => vs ← eval_list elts; Return (VTuple vs)
  | List elts Load => vs ← eval_list elts; Return (VList vs)
  | Attribute v _ _ => _ ← eval_expr v; OutsideModel
  | Name _ _ | Subscript _ _ _ | Tuple _ _ | List _ _ => OutsideModel
  end.

Definition eval (m : ast_mod) : outcome value :=
  match m with
  | Expression body => eval_expr body
  end.
End eval.

(** ** A model of [ast.parse(source, mode='eval')]

    The model covers the expressions built from decimal integer, point-float
    and imaginary literals, plain string literals, names, the unary and
    binary arithmetic and bitwise operators, calls with positional
    arguments, subscripts by an expression, attribute access, and tuple and
    list displays.  On a source outside this fragment (keywords, comparisons,
    slices, keyword or starred arguments, other literal forms, comments,
    line breaks, code points beyond ASCII other than the few known not to
    start an identifier) the model answers [OutsideModel]. *)

Module cpython.

Inductive token :=
| NUMBER (v : value) | NAME (id : pystr) | STRING (s : pystr)
| PLUS | MINUS | STAR | DOUBLESTAR | SLASH | DOUBLESLASH | PERCENT | AT
| LEFTSHIFT | RIGHTSHIFT | AMPER | VBAR | CIRCUMFLEX | TILDE
| LPAR | RPAR | LSQB | RSQB | COMMA | DOT.

Definition is_digit (c : N) : bool := ((0x30 <=? c) && (c <=? 0x39))%N.

Definition is_name_start (c : N) : bool :=
  ((0x41 <=? c) && (c <=? 0x5A) || (0x61 <=? c) && (c <=? 0x7A)
   || (c =? 0x5F))%N.

Definition is_name_char (c : N) : bool := is_name_start c || is_digit c.

Definition is_quote (c : N) : bool := ((c =? 0x22) || (c =? 0x27))%N.

(** Space, tab and form feed separate tokens. *)
Definition is_blank (c : N) : bool := ((c =? 0x20) || (c =? 0x09) || (c =? 0x0C))%N.

(** Code points beyond ASCII that cannot occur in an identifier: the
    multiplication and division signs, the em dash and the euro sign.  The
    tokenizer rejects them outside string literals. *)
Definition is_invalid_character (c : N) : bool :=
  ((c =? 0xD7) || (c =? 0xF7) || (c =? 0x2014) || (c =? 0x20AC))%N.

Definition keywords : list pystr :=
  py <$> [ "False"; "None"; "True"; "and"; "as"; "assert"; "async"; "await";
           "break"; "class"; "continue"; "def"; "del"; "elif"; "else";
           "except"; "finally"; "for"; "from"; "global"; "if"; "import";
           "in"; "is"; "lambda"; "nonlocal"; "not"; "or"; "pass"; "raise";
           "return"; "try"; "while"; "with"; "yield" ]%string.

(** The longest prefix of code points that satisfy [p], and the rest. *)
Fixpoint span (p : N -> bool) (s : pystr) : pystr * pystr :=
  match s with
  | c :: r =>
    if p c then let '(a, b) := span p r in (c :: a, b) else ([], s)
  | [] => ([], [])
  end.

(** The value of a run of decimal digits. *)
Definition digits_value (ds : pystr) : Z :=
  foldl (fun acc c => 10 * acc + (Z.of_N c - 0x30)) 0 ds.

Definition head_is (p : N -> bool) (s : pystr) : bool :=
  match s with
  | c :: _ => p c
  | [] => false
  end.

(** What a numeric literal denotes once its digits are read: [int_part]
    before the point, [frac] after it when [pointed]; [rest] is the source
    that follows.  The result is the token and the remaining source. *)
Definition number_token (int_part frac : pystr) (pointed : bool) (rest : pystr)
  : outcome (token * pystr) :=
  let imaginary := head_is (fun c => (c =? 0x6A) || (c =? 0x4A))%N rest in
  let rest' := if imaginary then drop 1 rest else rest in
  if head_is is_name_char rest' then OutsideModel
  else
    let as_float :=
      pyfloat.of_decimal (digits_value (int_part ++ frac)) (length frac) in
    if imaginary then
      match as_float with
      | Some x => Return (NUMBER (VComplex 0 x), rest')
      | None => OutsideModel
      end
    else if pointed then
      match as_float with
      | Some x => Return (NUMBER (VFloat x), rest')
      | None => OutsideModel
      end
    else if head_is (fun c => (c =? 0x30)%N) int_part
            && negb (digits_value int_part =? 0)
    then Raise SyntaxError     (* leading zeros in a decimal integer *)
    else Return (NUMBER (VInt (digits_value int_part)), rest').

Definition push (t : token) (r : outcome (list token)) : outcome (list token) :=
  ts ← r; Return (t :: ts).

(** The tokenizer.  Each step consumes at least one code point, so the
    length of the source bounds the number of steps. *)
Fixpoint tokenize (fuel : nat) (s : pystr) : outcome (list token) :=
  match fuel, s with
  | _, [] => Return []
  | O, _ :: _ => OutsideModel
  | S fuel', c :: r =>
    if is_blank c then tokenize fuel' r
    else if is_digit c || ((c =? 0x2E)%N && head_is is_digit r) then
      let '(int_part, r1) := span is_digit s in
      let lexed :=
        match r1 with
        | 0x2E%N :: r2 =>
          let '(frac, r3) := span is_digit r2 in
          number_token int_part frac true r3
        | _ => number_token int_part [] false r1
        end in
      '(t, rest) ← lexed;
      push t (tokenize fuel' rest)
    else if is_name_start c then
      let '(id, rest) := span is_name_char r in
      if bool_decide (c :: id ∈ keywords) || head_is is_quote rest
      then OutsideModel
      else push (NAME (c :: id)) (tokenize fuel' rest)
    else if is_quote c then
      let '(body, rest) :=
        span (fun x => negb ((x =? c) || (x =? 0x5C) || (x =? 0x0A)
                             || (x =? 0x0D) || (x =? 0))%N) r in
      match rest with
      | q :: rest' =>
        if negb (q =? c)%N then OutsideModel
        else if bool_decide (body = []) && head_is (N.eqb c) rest'
        then OutsideModel       (* a triple-quoted string *)
        else push (STRING body) (tokenize fuel' rest')
      | [] => OutsideModel
      end
    else
      let one (t : token) := push t (tokenize fuel' r) in
      let two (t : token) := push t (tokenize fuel' (drop 1 r)) in
      match c with
      | 0x2B => one PLUS
      | 0x2D => one MINUS
      | 0x2A => if head_is (N.eqb 0x2A) r then two DOUBLESTAR else one STAR
      | 0x2F => if head_is (N.eqb 0x2F) r then two DOUBLESLASH else one SLASH
      | 0x25 => one PERCENT
      | 0x40 => one AT
      | 0x3C => if head_is (N.eqb 0x3C) r then two LEFTSHIFT else OutsideModel
      | 0x3E => if head_is (N.eqb 0x3E) r then two RIGHTSHIFT else OutsideModel
      | 0x26 => one AMPER
      | 0x7C => one VBAR
      | 0x5E => one CIRCUMFLEX
      | 0x7E => one TILDE
      | 0x28 => one LPAR
      | 0x29 => one RPAR
      | 0x5B => one LSQB
      | 0x5D => one RSQB
      | 0x2C => one COMMA
      | 0x2E => if head_is (N.eqb 0x2E) r then OutsideModel else one DOT
      | _ => if is_invalid_character c then Raise SyntaxError else OutsideModel
      end%N
  end.

(** The binary operators by binding level, loosest first: [|], [^], [&],
    shifts, sums, terms. *)
Definition binary_operator (level : nat) (t : token) : option operator :=
  match level, t with
  | 0%nat, VBAR => Some BitOr
  | 1%nat, CIRCUMFLEX => Some BitXor
  | 2%nat, AMPER => Some BitAnd
  | 3%nat, LEFTSHIFT => Some LShift
  | 3%nat, RIGHTSHIFT => Some RShift
  | 4%nat, PLUS => Some Add
  | 4%nat, MINUS => Some Sub
  | 5%nat, STAR => Some Mult
  | 5%nat, SLASH => Some Div
  | 5%nat, DOUBLESLASH => Some FloorDiv
  | 5%nat, PERCENT => Some Mod
  | 5%nat, AT => Some MatMult
  | _, _ => None
  end.

(** Adjacent string literals are one constant. *)
Fixpoint strings (ts : list token) : pystr * list token :=
  match ts with
  | STRING s :: ts' => let '(a, rest) := strings ts' in (s ++ a, rest)
  | _ => ([], ts)
  end.

Definition closes (ts : list token) : bool :=
  match ts with
  | [] | RPAR :: _ | RSQB :: _ => true
  | _ => false
  end.

(** The recursive-descent parser, by the rules of Python's grammar:
    [bitwise_or] down to [term] ([parse_level], [parse_rest]), [factor] and
    [power] ([parse_factor]), [primary] ([parse_trailers]), [atom]
    ([parse_atom]) and comma-separated items ([parse_items],
    [parse_expressions]).  The fuel bounds the depth of the descent. *)
Fixpoint parse_level (fuel level : nat) (ts : list token)
  : outcome (expr * list token) :=
  match fuel with
  | O => OutsideModel
  | S fuel' =>
    if (6 <=? level)%nat then parse_factor fuel' ts
    else
      '(lhs, rest) ← parse_level fuel' (S level) ts;
      parse_rest fuel' level lhs rest
  end
with parse_rest (fuel level : nat) (lhs : expr) (ts : list token)
  : outcome (expr * list token) :=
  match fuel with
  | O => OutsideModel
  | S fuel' =>
    match ts with
    | t :: ts' =>
      match binary_operator level t with
      | Some op =>
        '(rhs, rest) ← parse_level fuel' (S level) ts';
        parse_rest fuel' level (BinOp lhs op rhs) rest
      | None => Return (lhs, ts)
      end
    | [] => Return (lhs, ts)
    end
  end
with parse_factor (fuel : nat) (ts : list token)
  : outcome (expr * list token) :=
  match fuel with
  | O => OutsideModel
  | S fuel' =>
    match ts with
    | PLUS :: ts' =>
      '(e, rest) ← parse_factor fuel' ts'; Return (UnaryOp UAdd e, rest)
    | MINUS :: ts' =>
      '(e, rest) ← parse_factor fuel' ts'; Return (UnaryOp USub e, rest)
    | TILDE :: ts' =>
      '(e, rest) ← parse_factor fuel' ts'; Return (UnaryOp Invert e, rest)
    | _ =>
      '(a, rest) ← parse_atom fuel' ts;
      '(base, rest) ← parse_trailers fuel' a rest;
      match rest with
      | DOUBLESTAR :: rest' =>
        '(exponent, rest'') ← parse_factor fuel' rest';
        Return (BinOp base Pow exponent, rest'')
      | _ => Return (base, rest)
      end
    end
  end
with parse_trailers (fuel : nat) (e : expr) (ts : list token)
  : outcome (expr * list token) :=
  match fuel with
  | O => OutsideModel
  | S fuel' =>
    match ts with
    | LPAR :: RPAR :: ts' => parse_trailers fuel' (Call e []) ts'
    | LPAR :: ts' =>
      '(args, rest) ← parse_items fuel' ts';
      match rest with
      | RPAR :: rest' => parse_trailers fuel' (Call e args) rest'
      | _ => Raise SyntaxError
      end
    | LSQB :: ts' =>
      '(index, rest) ← parse_expressions fuel' ts';
      match rest with
      | RSQB :: rest' => parse_trailers fuel' (Subscript e index Load) rest'
      | _ => Raise SyntaxError
      end
    | DOT :: NAME attr :: ts' => parse_trailers fuel' (Attribute e attr Load) ts'
    | DOT :: _ => Raise SyntaxError
    | _ => Return (e, ts)
    end
  end
with parse_atom (fuel : nat) (ts : list token)
  : outcome (expr * list token) :=
  match fuel with
  | O => OutsideModel
  | S fuel' =>
    match ts with
    | NUMBER v :: ts' => Return (Constant v, ts')
    | NAME id :: ts' => Return (Name id Load, ts')
    | STRING _ :: _ =>
      let '(s, rest) := strings ts in Return (Constant (VStr s), rest)
    | LPAR :: RPAR :: ts' => Return (Tuple [] Load, ts')
    | LPAR :: ts' =>
      '(e, rest) ← parse_expressions fuel' ts';
      match rest with
      | RPAR :: rest' => Return (e, rest')
      | _ => Raise SyntaxError
      end
    | LSQB :: RSQB :: ts' => Return (List [] Load, ts')
    | LSQB :: ts' =>
      '(elts, rest) ← parse_items fuel' ts';
      match rest with
      | RSQB :: rest' => Return (List elts Load, rest')
      | _ => Raise SyntaxError
      end
    | STAR :: _ | DOUBLESTAR :: _ => OutsideModel   (* a starred item *)
    | _ => Raise SyntaxError
    end
  end
with parse_items (fuel : nat) (ts : list token)
  : outcome (list expr * list token) :=
  match fuel with
  | O => OutsideModel
  | S fuel' =>
    '(e, rest) ← parse_level fuel' 0 ts;
    match rest with
    | COMMA :: rest' =>
      if closes rest' then Return ([e], rest')
      else '(es, rest'') ← parse_items fuel' rest'; Return (e :: es, rest'')
    | _ => Return ([e], rest)
    end
  end
with parse_expressions (fuel : nat) (ts : list token)
  : outcome (expr * list token) :=
  match fuel with
  | O => OutsideModel
  | S fuel' =>
    '(e, rest) ← parse_level fuel' 0 ts;
    match rest with
    | COMMA :: rest' =>
      (* a comma after the first item makes a tuple *)
      if closes rest' then Return (Tuple [e] Load, rest')
      else
        '(es, rest'') ← parse_items fuel' rest';
        Return (Tuple (e :: es) Load, rest'')
    | _ => Return (e, rest)
    end
  end.

(** [ast.parse(source, mode='eval')].  A source that starts with blank
    space is outside the model. *)
Definition parse (source : pystr) : outcome ast_mod :=
  if head_is is_blank source then OutsideModel
  else
    ts ← tokenize (length source) source;
    '(body, rest) ← parse_expressions (16 * length ts + 16) ts;
    match rest with
    | [] => Return (Expression body)
    | _ :: _ => Raise SyntaxError
    end.

End cpython.

(** ** Host integers as text: [int(s, base)], [bin], [oct], [hex], [str] *)

Module pytext.
(** The value of a digit of [int(s, base)]: [0-9], then letters of either
    case from ten on. *)
Definition digit_value (c : N) : option Z :=
  if ((0x30 <=? c) && (c <=? 0x39))%N then Some (Z.of_N c - 0x30)
  else if ((0x61 <=? c) && (c <=? 0x7A))%N then Some (Z.of_N c - 0x61 + 10)
  else if ((0x41 <=? c) && (c <=? 0x5A))%N then Some (Z.of_N c - 0x41 + 10)
  else None.

(** The digits of a number, most significant first, read in a base; [None]
    when a code point is not a digit of the base. *)
Fixpoint digits_value (base acc : Z) (ds : pystr) : option Z :=
  match ds with
  | [] => Some acc
  | c :: ds' =>
    match digit_value c with
    | Some d => if d <? base then digits_value base (base * acc + d) ds' else None
    | None => None
    end
  end.

(** The letter that introduces a literal of the base, which [int] skips
    after a leading zero. *)
Definition is_base_prefix (base : Z) (c : N) : bool :=
  (base =? 16) && ((c =? 0x78) || (c =? 0x58))%N
  || (base =? 8) && ((c =? 0x6F) || (c =? 0x4F))%N
  || (base =? 2) && ((c =? 0x62) || (c =? 0x42))%N.

Definition unsigned_int (ds : pystr) (base : Z) : outcome Z :=
  let prefixed :=
    match ds with
    | zero :: c :: _ => (zero =? 0x30)%N && is_base_prefix base c
    | _ => false
    end in
  if bool_decide (ds = []) then Raise IntInvalidLiteral
  else if prefixed then OutsideModel
  else match digits_value base 0 ds with
       | Some n => Return n
       | None => Raise IntInvalidLiteral
       end.

(** [int(s, base)] on ASCII text without blank space or underscores: an
    optional sign, then digits of the base.  The other forms [int] reads
    (surrounding blank space, digit separators, a base prefix, decimal digits
    of other scripts) are outside the model. *)
Definition int (s : pystr) (base : Z) : outcome Z :=
  if existsb (fun c => (0x80 <=? c) || (c =? 0x5F) || str.isspace c)%N s
  then OutsideModel
  else match s with
       | sign :: ds =>
         if (sign =? 0x2D)%N then n ← unsigned_int ds base; Return (- n)
         else if (sign =? 0x2B)%N then unsigned_int ds base
         else unsigned_int s base
       | [] => unsigned_int s base
       end.

Definition digit_char (d : Z) : N :=
  if d <? 10 then Z.to_N (d + 0x30) else Z.to_N (d - 10 + 0x61).

(** The digits of [n >= 0] in a base, most significant first, in front of
    [acc]; [fuel] bounds their number. *)
Fixpoint digits_from (fuel : nat) (base n : Z) (acc : pystr) : pystr :=
  match fuel with
  | O => acc
  | S fuel' =>
    if n <? base then digit_char n :: acc
    else digits_from fuel' base (n / base) (digit_char (n mod base) :: acc)
  end.

Definition digits (base n : Z) : pystr :=
  digits_from (S (Z.to_nat (Z.log2 n))) base n [].

Definition render (prefix : pystr) (base n : Z) : pystr :=
  (if n <? 0 then py "-" else []) ++ prefix ++ digits base (Z.abs n).

Definition bin (n : Z) : pystr := render (py "0b") 2 n.
Definition oct (n : Z) : pystr := render (py "0o") 8 n.
Definition hex (n : Z) : pystr := render (py "0x") 16 n.
Definition str (n : Z) : pystr := render [] 10 n.
End pytext.

(** ** The regular expressions of [NumberConverter.validate_input] *)

Module re.
(** Where [$] matches: at the end of the text, or before a line feed that
    ends it. *)
Definition before_dollar (s : pystr) : pystr :=
  match rev s with
  | c :: body => if (c =? 0x0A)%N then rev body else s
  | [] => s
  end.

(** [bool(re.match('^[...]+$', s))] for a class of code points. *)
Definition match_class_plus (cls : N -> bool) (s : pystr) : bool :=
  let body := before_dollar s in
  negb (bool_decide (body = [])) && forallb cls body.

(** [bool(re.match('^-?\d+$', s))] on ASCII text; [\d] also accepts the
    decimal digits of other scripts, so text beyond ASCII is outside the
    model. *)
Definition match_signed_digits (s : pystr) : outcome bool :=
  if existsb (fun c => 0x80 <=? c)%N s then OutsideModel
  else
    Return (match s with
            | c :: ds =>
              if (c =? 0x2D)%N then match_class_plus cpython.is_digit ds
              else match_class_plus cpython.is_digit s
            | [] => match_class_plus cpython.is_digit s
            end).
End re.

(** ** Main.py *)

(** [isinstance(n, classes)] *)
Definition isinstance (n : node) (classes : list ast.cls) : bool :=
  bool_decide (class_of n ∈ classes).

(** [d.update(other)] *)
Definition dict_update {V} (d other : gmap pystr V) : gmap pystr V := other ∪ d.

(** [{name: getattr(math, name) for name in dir(math)
      if not name.startswith("__")}] *)
Definition math_names : gmap pystr value :=
  list_to_map ((fun name => (name, math.getattr name))
                 <$> filter (fun name => str.startswith name (py "__") = false)
                       math.dir).

Module SafeEvaluator.

Definition ALLOWED_NAMES : gmap pystr value :=
  dict_update math_names
    (list_to_map [ (py "abs", VFunction builtins_abs);
                   (py "round", VFunction builtins_round);
                   (py "pow", VFunction builtins_pow);
                   (py "factorial", VFunction (math_function (py "factorial")));
                   (py "min", VFunction builtins_min);
                   (py "max", VFunction builtins_max) ]).

Definition ALLOWED_NODES : list ast.cls :=
  [ ast.Expression; ast.Call; ast.Name; ast.Load; ast.BinOp; ast.UnaryOp;
    ast.Num; ast.Constant; ast.Add; ast.Sub; ast.Mult; ast.Div; ast.Mod;
    ast.Pow; ast.USub; ast.UAdd; ast.LShift; ast.RShift; ast.BitXor;
    ast.BitAnd; ast.BitOr; ast.FloorDiv; ast.Tuple; ast.List ].

(** The validation loop over the nodes [ast.walk] yields. *)
Fixpoint check (nodes : list node) : outcome unit :=
  match nodes with
  | [] => Return tt
  | n :: rest =>
    if negb (isinstance n ALLOWED_NODES)
    then Raise (UnsupportedOperation (class_of n))
    else
      match n with
      | EXPR (Name id _) =>
        match ALLOWED_NAMES !! id with
        | None => Raise (UnknownName id)
        | Some _ => check rest
        end
      | _ => check rest
      end
  end.

(** The substitutions of line 54, with the literals as the file has them. *)
Definition normalize (expr : pystr) : pystr :=
  str.replace
    (str.replace
       (str.replace (str.replace expr (py "Ã—") (py "*")) (py "Ã·") (py "/"))
       (py "^") (py "**"))
    (py "Ï€") (py "pi").

(** The treatment of the evaluation's result (lines 70 to 75). *)
Definition finish (result : value) : outcome value :=
  match result with
  | VComplex re im =>
    if (im =? 0)%float then Return (VFloat re) else Raise ComplexNotSupported
  | _ => Return result
  end.

Section evaluate.
Variable ast_parse : pystr -> outcome ast_mod.
Variable libm : Libm.

Definition evaluate (expr : pystr) : outcome value :=
  if bool_decide (expr = []) || bool_decide (str.strip expr = [])
  then Raise EmptyExpression
  else
    let expr := str.strip expr in
    let expr := normalize expr in
    match ast_parse expr with
    | Raise SyntaxError => Raise SyntaxErr
    | Raise e => Raise e
    | OutsideModel => OutsideModel
    | Return node =>
      _ ← check (walk (MOD node));
      result ← eval libm ALLOWED_NAMES node;
      finish result
    end.
End evaluate.

End SafeEvaluator.

Module NumberConverter.

Definition BASES : gmap pystr Z :=
  list_to_map [ (py "Binary", 2); (py "Octal", 8); (py "Decimal", 10);
                (py "Hexadecimal", 16) ].

Definition is_binary_digit (c : N) : bool := ((c =? 0x30) || (c =? 0x31))%N.

Definition is_octal_digit (c : N) : bool := ((0x30 <=? c) && (c <=? 0x37))%N.

Definition is_hex_digit (c : N) : bool :=
  ((0x30 <=? c) && (c <=? 0x39) || (0x41 <=? c) && (c <=? 0x46)
   || (0x61 <=? c) && (c <=? 0x66))%N.

(** [value.strip().replace(' ', '')] *)
Definition clean (value : pystr) : pystr :=
  str.replace (str.strip value) (py " ") [].

Definition validate_input (value base_name : pystr) : outcome bool :=
  let value := clean value in
  if bool_decide (value = []) then Return false
  else
    match BASES !! base_name with
    | None => Raise (KeyError base_name)
    | Some base =>
      if bool_decide (base_name = py "Binary")
      then Return (re.match_class_plus is_binary_digit value)
      else if bool_decide (base_name = py "Octal")
      then Return (re.match_class_plus is_octal_digit value)
      else if bool_decide (base_name = py "Decimal")
      then re.match_signed_digits value
      else if bool_decide (base_name = py "Hexadecimal")
      then Return (re.match_class_plus is_hex_digit value)
      else Return false
    end.

Definition convert (value from_base to_base : pystr) : outcome pystr :=
  let value := clean value in
  valid ← validate_input value from_base;
  if negb valid then Raise (InvalidNumber from_base)
  else
    match BASES !! from_base with
    | None => Raise (KeyError from_base)
    | Some base =>
      decimal_value ← pytext.int value base;
      if bool_decide (to_base = py "Binary") then
        Return (if 0 <=? decimal_value
                then str.slice_from 2 (pytext.bin decimal_value)
                else py "-" ++ str.slice_from 3 (pytext.bin decimal_value))
      else if bool_decide (to_base = py "Octal") then
        Return (if 0 <=? decimal_value
                then str.slice_from 2 (pytext.oct decimal_value)
                else py "-" ++ str.slice_from 3 (pytext.oct decimal_value))
      else if bool_decide (to_base = py "Decimal") then
        Return (pytext.str decimal_value)
      else if bool_decide (to_base = py "Hexadecimal") then
        Return (if 0 <=? decimal_value
                then str.upper (str.slice_from 2 (pytext.hex decimal_value))
                else py "-"
                     ++ str.upper (str.slice_from 3 (pytext.hex decimal_value)))
      else Return []
    end.

End NumberConverter.

(** *** The history, the converter frame and the calculator frame

    The classes of [Main.py] that call the evaluator and the converter.  A Tk
    variable is modelled by the text it holds, an object by a record of its
    attributes, and a method by a function from the object's state to its
    next state, together with the requests it makes of its environment (a
    [json.dump] of the history, a message box).  The widgets themselves are
    not modelled. *)

(** [items[:stop]] *)
Definition slice_to {A} (stop : Z) (items : list A) : list A :=
  let n := Z.of_nat (length items) in
  let stop := if stop <? 0 then Z.max 0 (stop + n) else stop in
  take (Z.to_nat stop) items.

(** [type(n).__name__] *)
Definition class_name (c : ast.cls) : pystr :=
  match c with
  | ast.Expression => py "Expression" | ast.Call => py "Call"
  | ast.Name => py "Name" | ast.Load => py "Load" | ast.Store => py "Store"
  | ast.Del => py "Del" | ast.BinOp => py "BinOp"
  | ast.UnaryOp => py "UnaryOp" | ast.Num => py "Num"
  | ast.Constant => py "Constant" | ast.Add => py "Add" | ast.Sub => py "Sub"
  | ast.Mult => py "Mult" | ast.Div => py "Div" | ast.Mod => py "Mod"
  | ast.Pow => py "Pow" | ast.USub => py "USub" | ast.UAdd => py "UAdd"
  | ast.LShift => py "LShift" | ast.RShift => py "RShift"
  | ast.BitXor => py "BitXor" | ast.BitAnd => py "BitAnd"
  | ast.BitOr => py "BitOr" | ast.FloorDiv => py "FloorDiv"
  | ast.Tuple => py "Tuple" | ast.List => py "List"
  | ast.Subscript => py "Subscript" | ast.Index => py "Index"
  | ast.Slice => py "Slice" | ast.Attribute => py "Attribute"
  | ast.MatMult => py "MatMult" | ast.Invert => py "Invert"
  | ast.Not => py "Not"
  end.

(** [str(e)] for the exceptions whose text is fixed by the sources or by
    one call of the host; the other texts (that of a [SyntaxError], of a
    [KeyError], of [int]'s refusal, ...) are outside the model. *)
Definition exn_str (e : exn) : outcome pystr :=
  match e with
  | EmptyExpression => Return (py "Empty expression")
  | UnsupportedOperation c =>
    Return (py "Unsupported operation: " ++ class_name c)
  | UnknownName id => Return (py "Unknown function or constant: " ++ id)
  | ComplexNotSupported => Return (py "Complex numbers not supported")
  | InvalidNumber base_name =>
    Return (py "Invalid " ++ base_name ++ py " number")
  | DisallowedExpression c =>
    Return (py "Disallowed expression: " ++ class_name c)
  | NameNotAllowed id =>
    Return (py "Use of name '" ++ id ++ py "' is not allowed")
  | MathDomainError => Return (py "math domain error")
  | FactorialNegative =>
    Return (py "factorial() not defined for negative values")
  | FactorialNotIntegral =>
    Return (py "factorial() only accepts integral values")
  | NegativeShiftCount => Return (py "negative shift count")
  | _ => OutsideModel
  end.

Module HistoryManager.

(** An entry of the history: the dictionary that [add] builds. *)
Record entry := {
  expression : pystr;
  result : pystr;
  timestamp : pystr
}.

(** The attributes of a manager.  [__init__] sets [max_history] to 100 and
    no method assigns it again; [__init__], [_ensure_dir] and [load], which
    read the file system, are not modelled: the statements hold for every
    history a manager may start with. *)
Record t := {
  filename : pystr;
  history : list entry;
  max_history : Z
}.

(** What [save] asks of the file system: [json.dump(self.history, f,
    indent=2)] on the file of the manager.  A failure of the write is
    swallowed by [save] and changes nothing in the manager. *)
Inductive effect :=
| json_dump (document : list entry) (filename : pystr).

Definition with_history (self : t) (entries : list entry) : t :=
  {| filename := filename self; history := entries;
     max_history := max_history self |}.

Definition save (self : t) : list effect :=
  [json_dump (history self) (filename self)].

(** [add]; [now] is the text of [datetime.now().isoformat()]. *)
Definition add (expression result now : pystr) (self : t) : t * list effect :=
  let entry := {| expression := expression; result := result;
                  timestamp := now |} in
  let self := with_history self (entry :: history self) in
  let self :=
    if Z.of_nat (length (history self)) >? max_history self
    then with_history self (slice_to (max_history self) (history self))
    else self in
  (self, save self).

(** [get_recent(limit)]; the default [limit] is 20. *)
Definition get_recent (limit : Z) (self : t) : list entry :=
  slice_to limit (history self).

Definition clear (self : t) : t * list effect :=
  let self := with_history self [] in
  (self, save self).

End HistoryManager.

Module ConverterFrame.

(** The variables of the frame: the entry, the source base, and one
    read-only field for each base, in the order of their creation. *)
Record t := {
  input_var : pystr;
  from_var : pystr;
  result_vars : list (pystr * pystr)
}.

(** The variables as [_create_interface] creates them. *)
Definition _create_interface : t :=
  {| input_var := [];
     from_var := py "Decimal";
     result_vars :=
       (fun base => (base, py "0"))
         <$> [py "Binary"; py "Octal"; py "Decimal"; py "Hexadecimal"] |}.

(** [for var in self.result_vars.values(): var.set(text)] *)
Definition set_all (text : pystr) (self : t) : t :=
  {| input_var := input_var self;
     from_var := from_var self;
     result_vars := (fun '(base, _) => (base, text)) <$> result_vars self |}.

(** The loop of lines 660 to 662, which stops at the first exception. *)
Fixpoint convert_each (input_val from_base : pystr)
    (vars : list (pystr * pystr)) : outcome (list (pystr * pystr)) :=
  match vars with
  | [] => Return []
  | (to_base, _) :: rest =>
    result ← NumberConverter.convert input_val from_base to_base;
    rest ← convert_each input_val from_base rest;
    Return ((to_base, result) :: rest)
  end.

Definition _convert (self : t) : outcome t :=
  let input_val := str.strip (input_var self) in
  let from_base := from_var self in
  if bool_decide (input_val = []) then Return (set_all (py "0") self)
  else
    valid ← NumberConverter.validate_input input_val from_base;
    if negb valid then Return (set_all (py "Invalid input") self)
    else
      match convert_each input_val from_base (result_vars self) with
      | Return vars =>
        Return {| input_var := input_var self; from_var := from_var self;
                  result_vars := vars |}
      | Raise e =>
        text ← exn_str e; Return (set_all (py "Error: " ++ text) self)
      | OutsideModel => OutsideModel
      end.

(** The trace on [input_var] and [from_var]. *)
Definition _on_input_change (self : t) : outcome t := _convert self.

Definition _clear (self : t) : outcome t :=
  self ← _on_input_change
           {| input_var := []; from_var := from_var self;
              result_vars := result_vars self |};
  Return (set_all (py "0") self).

End ConverterFrame.

Module CalculatorFrame.

Inductive effect :=
| saved (e : HistoryManager.effect)
| showerror (title : pystr) (message : outcome pystr).

(** The data of the frame: the two Tk variables, the memory, the last
    answer, the history manager, and the history panel as the list of the
    texts inserted in it, each with its tag.  The label of the memory and
    the buttons are not modelled. *)
Record t := {
  expression_var : pystr;
  result_var : pystr;
  memory : float;
  last_answer : value;
  history_manager : HistoryManager.t;
  history_text : list (pystr * pystr)
}.

Definition _load_history (self : t) : t :=
  {| expression_var := expression_var self;
     result_var := result_var self;
     memory := memory self;
     last_answer := last_answer self;
     history_manager := history_manager self;
     history_text :=
       flat_map
         (fun entry =>
            [ (HistoryManager.expression entry ++ [0x0A%N], py "expr");
              (py "= " ++ HistoryManager.result entry ++ [0x0A%N; 0x0A%N],
               py "result") ])
         (HistoryManager.get_recent 20 (history_manager self)) |}.

(** Lines 538 to 542: a float without fractional part is shown as an
    [int]; the rounding of the other floats to ten places is outside the
    model. *)
Definition shown (result : value) : outcome value :=
  match result with
  | VFloat x =>
    if pyfloat.is_integer x then Return (VInt (pyfloat.to_int x))
    else OutsideModel
  | _ => Return result
  end.

(** [str(result)] for an [int]; the other texts are outside the model. *)
Definition value_str (v : value) : outcome pystr :=
  match v with
  | VInt n => Return (pytext.str n)
  | _ => OutsideModel
  end.

Section evaluate.
Variable ast_parse : pystr -> outcome ast_mod.
Variable libm : Libm.

(** [evaluate]; [now] is the clock reading that [HistoryManager.add]
    takes. *)
Definition evaluate (now : pystr) (self : t) : outcome (t * list effect) :=
  let expr := str.strip (expression_var self) in
  if bool_decide (expr = []) then Return (self, [])
  else
    match
      result ← SafeEvaluator.evaluate ast_parse libm expr;
      result ← shown result;
      result_str ← value_str result;
      Return (result, result_str)
    with
    | Return (result, result_str) =>
      let '(manager, effects) :=
        HistoryManager.add expr result_str now (history_manager self) in
      Return (_load_history
                {| expression_var := expression_var self;
                   result_var := result_str;
                   memory := memory self;
                   last_answer := result;
                   history_manager := manager;
                   history_text := history_text self |},
              saved <$> effects)
    | Raise e =>
      Return ({| expression_var := expression_var self;
                 result_var := py "Error";
                 memory := memory self;
                 last_answer := last_answer self;
                 history_manager := history_manager self;
                 history_text := history_text self |},
              [showerror (py "Calculation Error") (exn_str e)])
    | OutsideModel => OutsideModel
    end.
End evaluate.

End CalculatorFrame.

(** ** Reservation.py *)

Module Reservation.

Definition ALLOWED_NAMES : gmap pystr value :=
  dict_update math_names
    (list_to_map [ (py "abs", VFunction builtins_abs);
                   (py "round", VFunction builtins_round);
                   (py "pow", VFunction builtins_pow);
                   (py "factorial", VFunction (math_function (py "factorial"))) ]).

Definition ALLOWED_NODES : list ast.cls :=
  [ ast.Expression; ast.Call; ast.Name; ast.Load; ast.BinOp; ast.UnaryOp;
    ast.Num; ast.Constant; ast.Add; ast.Sub; ast.Mult; ast.Div; ast.Mod;
    ast.Pow; ast.USub; ast.UAdd; ast.LShift; ast.RShift; ast.BitXor;
    ast.BitAnd; ast.BitOr; ast.FloorDiv; ast.Tuple; ast.List; ast.Subscript;
    ast.Index; ast.Slice ].

Fixpoint check (nodes : list node) : outcome unit :=
  match nodes with
  | [] => Return tt
  | n :: rest =>
    if negb (isinstance n ALLOWED_NODES)
    then Raise (DisallowedExpression (class_of n))
    else
      match n with
      | EXPR (Name id _) =>
        match ALLOWED_NAMES !! id with
        | None => Raise (NameNotAllowed id)
        | Some _ => check rest
        end
      | _ => check rest
      end
  end.

(** The substitutions of line 37. *)
Definition normalize (expr : pystr) : pystr :=
  str.replace
    (str.replace (str.replace expr (py "×") (py "*")) (py "÷") (py "/"))
    (py "^") (py "**").

Section safe_eval.
Variable ast_parse : pystr -> outcome ast_mod.
Variable libm : Libm.

Definition safe_eval (expr : pystr) : outcome value :=
  let expr := normalize expr in
  match ast_parse expr with
  | Raise _ => Raise InvalidExpression
  | OutsideModel => OutsideModel
  | Return node =>
    _ ← check (walk (MOD node));
    eval libm ALLOWED_NAMES node
  end.
End safe_eval.

(** [ConverterFrame.to_decimal] *)
Definition to_decimal (s from_sys : pystr) : outcome Z :=
  if bool_decide (from_sys = py "Binary") then pytext.int s 2
  else if bool_decide (from_sys = py "Decimal") then pytext.int s 10
  else if bool_decide (from_sys = py "Hexadecimal") then pytext.int s 16
  else if bool_decide (from_sys = py "Octal") then pytext.int s 8
  else Raise UnknownSystem.

(** [ConverterFrame.from_decimal] *)
Definition from_decimal (val : Z) (to_sys : pystr) : outcome pystr :=
  if bool_decide (to_sys = py "Binary")
  then Return (str.slice_from 2 (pytext.bin val))
  else if bool_decide (to_sys = py "Decimal") then Return (pytext.str val)
  else if bool_decide (to_sys = py "Hexadecimal")
  then Return (str.upper (str.slice_from 2 (pytext.hex val)))
  else if bool_decide (to_sys = py "Octal")
  then Return (str.slice_from 2 (pytext.oct val))
  else Raise UnknownSystem.

End Reservation.

(** [ConverterFrame] of [Reservation.py]: its variables and [convert]. *)
Module ReservationConverterFrame.

Record t := {
  input_var : pystr;
  result_var : pystr;
  from_var : pystr;
  to_var : pystr
}.

Definition with_result (self : t) (text : pystr) : t :=
  {| input_var := input_var self; result_var := text;
     from_var := from_var self; to_var := to_var self |}.

Definition convert (self : t) : outcome t :=
  let s := str.replace (str.strip (input_var self)) (py " ") [] in
  match
    val ← Reservation.to_decimal s (from_var self);
    Reservation.from_decimal val (to_var self)
  with
  | Return res => Return (with_result self res)
  | Raise e =>
    text ← exn_str e; Return (with_result self (py "Error: " ++ text))
  | OutsideModel => OutsideModel
  end.

Definition clear (self : t) : t :=
  {| input_var := []; result_var := [];
     from_var := from_var self; to_var := to_var self |}.

End ReservationConverterFrame.

(** ** Notions used by the statements *)

(** [descends n m]: [m] is [n] or a node below it. *)
Inductive descends : node -> node -> Prop :=
| descends_here n : descends n n
| descends_child n c m :
    c ∈ iter_child_nodes n -> descends c m -> descends n m.

(** The name table as the specification documents it: two constants and
    fourteen functions. *)
Definition documented_names : list pystr :=
  py <$> [ "pi"; "e"; "sqrt"; "sin"; "cos"; "tan"; "log"; "log10"; "log2";
           "exp"; "abs"; "round"; "pow"; "factorial"; "min"; "max" ]%string.

(** The public names of the host's [math] module. *)
Definition math_public_names : list pystr :=
  filter (fun name => str.startswith name (py "__") = false) math.dir.

(** The names [SafeEvaluator.ALLOWED_NAMES] is updated with. *)
Definition builtin_names : list pystr :=
  py <$> [ "abs"; "round"; "pow"; "factorial"; "min"; "max" ]%string.

(** An instance of the C library's interface made of constant functions,
    for closed statements about inputs that do not reach the library. *)
Definition libm_const : Libm :=
  {| c_pow := fun _ _ => 1%float;
     c_hypot := fun _ _ => 1%float;
     c_atan2 := fun _ _ => 1%float;
     c_cos := fun _ => 1%float;
     c_sin := fun _ => 1%float |}.

(** In [a / b], the left operand is an [int] too large for a [float] and the
    right operand is not an [int]: the conversion of [a] fails before the
    division is attempted. *)
Definition left_operand_overflows (a b : value) : bool :=
  match a, b with
  | VInt n, (VFloat _ | VComplex _ _) => is_infinity (pyfloat.nearest n)
  | _, _ => false
  end.


(** A digit of [int(_, base)] that is below the base. *)
Definition is_digit_of (base : Z) (c : N) : bool :=
  match pytext.digit_value c with
  | Some d => d <? base
  | None => false
  end.

(** The number that a run of digits denotes in a base. *)
Definition digits_number (base : Z) (ds : pystr) : Z :=
  foldl (fun acc c => base * acc + default 0 (pytext.digit_value c)) 0 ds.


(** Modelled on the specification's words: [normalize] strips leading zeros
    (of a run of digits, keeping its last digit) and applies canonical
    casing (upper case, as [convert] renders hexadecimal digits). *)
Fixpoint strip_leading_zeros (s : pystr) : pystr :=
  match s with
  | c :: ((_ :: _) as r) => if (c =? 0x30)%N then strip_leading_zeros r else s
  | _ => s
  end.

Definition normalize_digits (s : pystr) : pystr :=
  str.upper (strip_leading_zeros s).

(** The same for a text with an optional minus sign, which is preserved;
    zero carries no sign. *)
Definition normalize_number (s : pystr) : pystr :=
  match s with
  | c :: ds =>
    if (c =? 0x2D)%N then
      let d := normalize_digits ds in
      if bool_decide (d = py "0") then d else c :: d
    else normalize_digits s
  | [] => []
  end.


(** The number of nodes in a queue of [ast.walk]. *)
Definition queue_size (todo : list node) : nat :=
  foldr (fun n acc => (node_size n + acc)%nat) O todo.

(** Text that neither starts nor ends with white space. *)
Definition trimmed (s : pystr) : Prop :=
  match s with [] => True | c :: _ => str.isspace c = false end
  /\ match rev s with [] => True | c :: _ => str.isspace c = false end.


(** The entry that [HistoryManager.add] builds from its arguments. *)
Definition entry_of (item : pystr * pystr * pystr) : HistoryManager.entry :=
  let '(expression, result, now) := item in
  {| HistoryManager.expression := expression;
     HistoryManager.result := result;
     HistoryManager.timestamp := now |}.

(** Successive calls of [HistoryManager.add], the first item first. *)
Definition adds (items : list (pystr * pystr * pystr))
    (self : HistoryManager.t) : HistoryManager.t :=
  foldl (fun self '(expression, result, now) =>
           (HistoryManager.add expression result now self).1) self items.

(** The outcome is a [NameError]. *)
Definition is_name_error {A} (o : outcome A) : bool :=
  match o with
  | Raise (NameError _) => true
  | _ => false
  end.

(** The node is a name among [names]. *)
Definition mentions (names : list pystr) (n : node) : bool :=
  match n with
  | EXPR (Name id _) => bool_decide (id ∈ names)
  | _ => false
  end.

(** The code points with which the alias literals of either source start:
    those of line 54 of [Main.py] and the two glyphs of [Reservation.py]. *)
Definition glyph_code_points : list N := [0xC3; 0xCF; 0xD7; 0xF7]%N.

(** Induction on expressions, with the hypothesis for every element of an
    argument or element list. *)
Section expr_induction.
Variable P : expr -> Prop.
Hypothesis HConstant : forall v, P (Constant v).
Hypothesis HName : forall id ctx, P (Name id ctx).
Hypothesis HBinOp : forall l op r, P l -> P r -> P (BinOp l op r).
Hypothesis HUnaryOp : forall op operand, P operand -> P (UnaryOp op operand).
Hypothesis HCall :
  forall func args, P func -> Forall P args -> P (Call func args).
Hypothesis HAttribute : forall v attr ctx, P v -> P (Attribute v attr ctx).
Hypothesis HSubscript :
  forall v slice ctx, P v -> P slice -> P (Subscript v slice ctx).
Hypothesis HTuple : forall elts ctx, Forall P elts -> P (Tuple elts ctx).
Hypothesis HList : forall elts ctx, Forall P elts -> P (List elts ctx).

Fixpoint expr_induction (e : expr) : P e :=
  let all := fix all (es : list expr) : Forall P es :=
    match es with
    | [] => List.Forall_nil P
    | e' :: es' => List.Forall_cons P e' es' (expr_induction e') (all es')
    end in
  match e with
  | Constant v => HConstant v
  | Name id ctx => HName id ctx
  | BinOp l op r => HBinOp l op r (expr_induction l) (expr_induction r)
  | UnaryOp op operand => HUnaryOp op operand (expr_induction operand)
  | Call func args => HCall func args (expr_induction func) (all args)
  | Attribute v attr ctx => HAttribute v attr ctx (expr_induction v)
  | Subscript v slice ctx =>
    HSubscript v slice ctx (expr_induction v) (expr_induction slice)
  | Tuple elts ctx => HTuple elts ctx (all elts)
  | List elts ctx => HList elts ctx (all elts)
  end.
End expr_induction.

Section names.
Variable libm : Libm.
Variables locals locals' : gmap pystr value.

(** The evaluation of a list of expressions, as [eval_expr] does it for the
    arguments of a call and the elements of a display. *)
Fixpoint eval_exprs (es : list expr) : outcome (list value) :=
  match es with
  | [] => Return []
  | e :: es' =>
    v ← eval_expr libm locals e; vs ← eval_exprs es'; Return (v :: vs)
  end.

(** Every name at or below the node is a key of [locals]. *)
Definition names_resolve (n : node) : Prop :=
  forall id ctx, descends n (EXPR (Name id ctx)) -> is_Some (locals !! id).

(** The two tables agree on every name at or below the node. *)
Definition names_agree (n : node) : Prop :=
  forall id ctx, descends n (EXPR (Name id ctx)) ->
                 locals !! id = locals' !! id.
End names.

(** * Properties *)

(** ** [ast.walk] yields every node of the tree *)

Lemma node_size_pos n : (0 < node_size n)%nat.
Proof.
  destruct n as [[b]|e| | |]; simpl; try lia.
  destruct e; simpl; lia.
Qed.

Lemma queue_size_app a b : queue_size (a ++ b) = (queue_size a + queue_size b)%nat.
Proof.
  induction a as [|n a IH]; simpl; [done|]. rewrite IH. lia.
Qed.

Lemma queue_size_exprs es :
  queue_size (EXPR <$> es)
  = (fix sizes (es : list expr) : nat :=
       match es with
       | [] => O
       | e' :: es' => (expr_size e' + sizes es')%nat
       end) es.
Proof.
  induction es as [|e es IH]; [done|].
  unfold queue_size in *. simpl. f_equal. exact IH.
Qed.

Lemma queue_size_cons n todo :
  queue_size (n :: todo) = (node_size n + queue_size todo)%nat.
Proof. reflexivity. Qed.

(** A node counts for one more than its children. *)
Lemma node_size_children n :
  node_size n = S (queue_size (iter_child_nodes n)).
Proof.
  destruct n as [[b]|e|c|o|u]; [simpl; lia| |done..].
  destruct e; cbn [iter_child_nodes];
    rewrite ?queue_size_app, ?queue_size_cons, ?queue_size_exprs;
    simpl; lia.
Qed.

Lemma walk_queue_complete fuel : forall todo t m,
  (queue_size todo <= fuel)%nat ->
  t ∈ todo -> descends t m -> m ∈ walk_queue fuel todo.
Proof.
  induction fuel as [|fuel IH]; intros todo t m Hsize Ht Hd.
  - destruct todo as [|n rest]; [by apply elem_of_nil in Ht|].
    simpl in Hsize. pose proof (node_size_pos n). lia.
  - destruct todo as [|n rest]; [by apply elem_of_nil in Ht|].
    simpl.
    assert (Hrest : (queue_size (rest ++ iter_child_nodes n) <= fuel)%nat).
    { rewrite queue_size_app. simpl in Hsize.
      rewrite (node_size_children n) in Hsize. lia. }
    apply elem_of_cons in Ht as [->|Ht].
    + inversion Hd as [|? c ? Hc Hcm]; subst.
      * apply elem_of_cons; by left.
      * apply elem_of_cons; right.
        apply (IH _ c); [done| |done]. apply elem_of_app; by right.
    + apply elem_of_cons; right.
      apply (IH _ t); [done| |done]. apply elem_of_app; by left.
Qed.

Lemma walk_complete n m : descends n m -> m ∈ walk n.
Proof.
  intros Hd. unfold walk.
  apply (walk_queue_complete _ _ n); [simpl; lia| |done].
  apply elem_of_cons; by left.
Qed.

(** ** The validation loop *)

(** The loop ends normally or with one of its two errors. *)
Lemma check_cases nodes :
  SafeEvaluator.check nodes = Return tt
  \/ (exists c, SafeEvaluator.check nodes = Raise (UnsupportedOperation c))
  \/ (exists id, SafeEvaluator.check nodes = Raise (UnknownName id)).
Proof.
  induction nodes as [|n rest IH]; simpl; [by left|].
  destruct (isinstance n SafeEvaluator.ALLOWED_NODES); simpl; [|eauto].
  destruct n as [m|e| | |]; try done.
  destruct e; try done.
  destruct (SafeEvaluator.ALLOWED_NAMES !! id); eauto.
Qed.

(** When the loop ends normally, every node it saw has an allowed class and
    every name it saw is in the table. *)
Lemma check_passed nodes n :
  SafeEvaluator.check nodes = Return tt -> n ∈ nodes ->
  isinstance n SafeEvaluator.ALLOWED_NODES = true
  /\ forall id ctx, n = EXPR (Name id ctx) ->
       is_Some (SafeEvaluator.ALLOWED_NAMES !! id).
Proof.
  induction nodes as [|n' rest IH]; intros Hc Hn;
    [by apply elem_of_nil in Hn|].
  simpl in Hc.
  destruct (isinstance n' SafeEvaluator.ALLOWED_NODES) eqn:Hi; [|done].
  simpl in Hc.
  apply elem_of_cons in Hn as [->|Hn].
  - split; [done|]. intros id ctx ->.
    destruct (SafeEvaluator.ALLOWED_NAMES !! id); [eauto|done].
  - apply IH; [|done].
    destruct n' as [m|e| | |]; try done.
    destruct e; try done.
    by destruct (SafeEvaluator.ALLOWED_NAMES !! id).
Qed.

(** ** [str.strip] on blank text *)

Lemma lstrip_blank s :
  Forall (fun c => str.isspace c = true) s -> str.lstrip s = [].
Proof.
  induction 1 as [|c s Hc _ IH]; simpl; [done|]. by rewrite Hc.
Qed.

Lemma strip_blank s :
  Forall (fun c => str.isspace c = true) s -> str.strip s = [].
Proof.
  intros H. unfold str.strip. by rewrite (lstrip_blank s H).
Qed.

(** ** The stages of [evaluate] *)

Section stages.
Variable ast_parse : pystr -> outcome ast_mod.
Variable libm : Libm.

Local Abbreviation evaluate := (SafeEvaluator.evaluate ast_parse libm).

Lemma evaluate_blank expr :
  str.strip expr = [] -> evaluate expr = Raise EmptyExpression.
Proof.
  intros H. unfold evaluate, SafeEvaluator.evaluate.
  rewrite H, (bool_decide_eq_true_2 ([] = [])) by done.
  by rewrite orb_true_r.
Qed.

(** On text that is not blank and that the parser accepts, [evaluate]
    validates the tree, evaluates it and treats the result. *)
Lemma evaluate_parsed expr tree :
  str.strip expr <> [] ->
  ast_parse (SafeEvaluator.normalize (str.strip expr)) = Return tree ->
  evaluate expr
  = (_ ← SafeEvaluator.check (walk (MOD tree));
     result ← eval libm SafeEvaluator.ALLOWED_NAMES tree;
     SafeEvaluator.finish result).
Proof.
  intros Hs Hp. unfold evaluate, SafeEvaluator.evaluate.
  rewrite (bool_decide_eq_false_2 (str.strip expr = [])) by done.
  rewrite (bool_decide_eq_false_2 (expr = [])) by (by intros ->).
  simpl. by rewrite Hp.
Qed.

Lemma evaluate_syntax_error expr :
  str.strip expr <> [] ->
  ast_parse (SafeEvaluator.normalize (str.strip expr)) = Raise SyntaxError ->
  evaluate expr = Raise SyntaxErr.
Proof.
  intros Hs Hp. unfold evaluate, SafeEvaluator.evaluate.
  rewrite (bool_decide_eq_false_2 (str.strip expr = [])) by done.
  rewrite (bool_decide_eq_false_2 (expr = [])) by (by intros ->).
  simpl. by rewrite Hp.
Qed.

(** A tree with a node that the validation refuses is never evaluated. *)
Lemma evaluate_refused expr tree m :
  str.strip expr <> [] ->
  ast_parse (SafeEvaluator.normalize (str.strip expr)) = Return tree ->
  descends (MOD tree) m ->
  isinstance m SafeEvaluator.ALLOWED_NODES = false
  \/ (exists id ctx, m = EXPR (Name id ctx)
                     /\ SafeEvaluator.ALLOWED_NAMES !! id = None) ->
  exists e, evaluate expr = Raise e
            /\ ((exists id, e = UnknownName id)
                \/ (exists c, e = UnsupportedOperation c)).
Proof.
  intros Hs Hp Hd Hbad. rewrite (evaluate_parsed _ _ Hs Hp).
  destruct (check_cases (walk (MOD tree))) as [Hok|[[c Hc]|[id Hid]]].
  - destruct (check_passed _ m Hok (walk_complete _ _ Hd)) as [Hi Hn].
    destruct Hbad as [Hbad|(id & ctx & -> & Hnone)]; [congruence|].
    destruct (Hn id ctx eq_refl) as [v Hv]. congruence.
  - rewrite Hc. simpl. eauto.
  - rewrite Hid. simpl. eauto.
Qed.
End stages.

(** ** Empty input *)

(** C5. For every input that is empty or consists of white space only,
    [evaluate] raises [ValueError("Empty expression")] and nothing else; the
    parser is not consulted, since the result is the same for every
    parser. *)
Theorem evaluate_empty_expression
  (ast_parse : pystr -> outcome ast_mod) (libm : Libm) (expr : pystr) :
  Forall (fun c => str.isspace c = true) expr ->
  SafeEvaluator.evaluate ast_parse libm expr = Raise EmptyExpression.
Proof.
  intros H. apply evaluate_blank. by apply strip_blank.
Qed.

Lemma evaluate_empty_expression_witness :
  SafeEvaluator.evaluate cpython.parse libm_const (py "   ")
  = Raise EmptyExpression.
Proof.
  apply (evaluate_empty_expression cpython.parse libm_const (py "   ")).
  repeat constructor.
Defined.

(** The older variant has no such guard: on empty text the parser's error is
    reported as an invalid expression. *)
Example safe_eval_empty libm :
  Reservation.safe_eval cpython.parse libm [] = Raise InvalidExpression.
Proof. reflexivity. Qed.

(** ** Names outside the table, attribute access *)

(** C1, as the code has it. For every input whose tree holds a name that is
    not in the name table, or an attribute access, [evaluate] fails before
    anything is evaluated: with the unknown-name error, or with the
    unsupported-operation error of the node whitelist (an attribute access
    is parsed, and then refused by the whitelist). *)
Theorem evaluate_rejects_foreign_names_and_attributes
  (ast_parse : pystr -> outcome ast_mod) (libm : Libm)
  (expr : pystr) (tree : ast_mod) (m : node) :
  str.strip expr <> [] ->
  ast_parse (SafeEvaluator.normalize (str.strip expr)) = Return tree ->
  descends (MOD tree) m ->
  (exists id ctx, m = EXPR (Name id ctx)
                  /\ SafeEvaluator.ALLOWED_NAMES !! id = None)
  \/ (exists v attr ctx, m = EXPR (Attribute v attr ctx)) ->
  exists e, SafeEvaluator.evaluate ast_parse libm expr = Raise e
            /\ ((exists id, e = UnknownName id)
                \/ (exists c, e = UnsupportedOperation c)).
Proof.
  intros Hs Hp Hd Hbad.
  apply (evaluate_refused ast_parse libm expr tree m Hs Hp Hd).
  destruct Hbad as [Hn|(v & attr & ctx & ->)]; [by right|by left].
Qed.

Lemma evaluate_rejects_foreign_names_and_attributes_witness :
  exists e,
    SafeEvaluator.evaluate cpython.parse libm_const (py "__import__('os')")
    = Raise e
    /\ ((exists id, e = UnknownName id)
        \/ (exists c, e = UnsupportedOperation c)).
Proof.
  apply (evaluate_rejects_foreign_names_and_attributes
           cpython.parse libm_const (py "__import__('os')")
           (Expression (Call (Name (py "__import__") Load)
                             [Constant (VStr (py "os"))]))
           (EXPR (Name (py "__import__") Load))).
  - by vm_compute.
  - by vm_compute.
  - eapply descends_child; [by left|].
    eapply descends_child; [by left|]. apply descends_here.
  - left. exists (py "__import__"), Load. split; [done|by vm_compute].
Defined.

(** The two inputs the specification names: the first fails on the name,
    the second on the class of the attribute node, which the walk reaches
    before the name [os]. *)
Example evaluate_import libm :
  SafeEvaluator.evaluate cpython.parse libm (py "__import__('os')")
  = Raise (UnknownName (py "__import__")).
Proof. by vm_compute. Qed.

(** C1, as stated, fails on the second input of the claim: the error is
    neither the unknown-name error nor the syntax error. *)
Lemma evaluate_attribute_is_unsupported_operation :
  SafeEvaluator.evaluate cpython.parse libm_const (py "os.system('x')")
  = Raise (UnsupportedOperation ast.Attribute)
  /\ UnsupportedOperation ast.Attribute <> SyntaxErr
  /\ forall id, UnsupportedOperation ast.Attribute <> UnknownName id.
Proof. split; [by vm_compute|done]. Qed.

(** ** The name table *)

Lemma math_names_lookup id :
  is_Some (math_names !! id) <-> id ∈ math_public_names.
Proof.
  unfold math_names. fold math_public_names.
  rewrite <- elem_of_dom, dom_list_to_map_L, elem_of_list_to_set.
  rewrite <- list_fmap_compose.
  assert (Hfst : forall names : list pystr,
             fst ∘ (fun name => (name, math.getattr name)) <$> names = names).
  { induction names as [|a names IH]; [done|].
    rewrite fmap_cons. f_equal. exact IH. }
  by rewrite Hfst.
Qed.

Lemma allowed_names_lookup id :
  is_Some (SafeEvaluator.ALLOWED_NAMES !! id)
  <-> id ∈ math_public_names \/ id ∈ builtin_names.
Proof.
  unfold SafeEvaluator.ALLOWED_NAMES, dict_update.
  rewrite <- elem_of_dom, dom_union_L, elem_of_union, !elem_of_dom.
  rewrite math_names_lookup.
  rewrite <- elem_of_dom, dom_list_to_map_L, elem_of_list_to_set.
  change (_ <$> _) with builtin_names. tauto.
Qed.

Lemma documented_names_allowed id :
  id ∈ documented_names -> is_Some (SafeEvaluator.ALLOWED_NAMES !! id).
Proof.
  intros H. apply allowed_names_lookup.
  unfold documented_names in H. cbn [fmap list_fmap] in H.
  repeat (apply elem_of_cons in H as [->|H]);
    try (by apply elem_of_nil in H);
    first [ left; apply (bool_decide_unpack _); by vm_compute
          | right; apply (bool_decide_unpack _); by vm_compute ].
Qed.

(** C2, as the code has it. The table is built from the host's [math]
    module and six builtins: an identifier is in it exactly when it is a
    public name of [math] or one of [abs], [round], [pow], [factorial],
    [min], [max]. It holds the sixteen documented names. On an input that
    is one bare name, [evaluate] raises the unknown-name error when the name
    is outside the table, and otherwise yields the table's entry. *)
Theorem name_table_resolution
  (ast_parse : pystr -> outcome ast_mod) (libm : Libm) (expr id : pystr) :
  str.strip expr <> [] ->
  ast_parse (SafeEvaluator.normalize (str.strip expr))
  = Return (Expression (Name id Load)) ->
  (is_Some (SafeEvaluator.ALLOWED_NAMES !! id)
   <-> id ∈ math_public_names \/ id ∈ builtin_names)
  /\ (id ∈ documented_names -> is_Some (SafeEvaluator.ALLOWED_NAMES !! id))
  /\ SafeEvaluator.evaluate ast_parse libm expr
     = match SafeEvaluator.ALLOWED_NAMES !! id with
       | Some v => SafeEvaluator.finish v
       | None => Raise (UnknownName id)
       end.
Proof.
  intros Hs Hp. split; [apply allowed_names_lookup|].
  split; [apply documented_names_allowed|].
  rewrite (evaluate_parsed _ _ _ _ Hs Hp).
  unfold walk. simpl. unfold load_name.
  by destruct (SafeEvaluator.ALLOWED_NAMES !! id).
Qed.

Lemma name_table_resolution_witness :
  (is_Some (SafeEvaluator.ALLOWED_NAMES !! py "sqrt")
   <-> py "sqrt" ∈ math_public_names \/ py "sqrt" ∈ builtin_names)
  /\ (py "sqrt" ∈ documented_names
      -> is_Some (SafeEvaluator.ALLOWED_NAMES !! py "sqrt"))
  /\ SafeEvaluator.evaluate cpython.parse libm_const (py "sqrt")
     = match SafeEvaluator.ALLOWED_NAMES !! py "sqrt" with
       | Some v => SafeEvaluator.finish v
       | None => Raise (UnknownName (py "sqrt"))
       end.
Proof.
  apply (name_table_resolution cpython.parse libm_const (py "sqrt") (py "sqrt"));
    by vm_compute.
Defined.

Example evaluate_unknown_name libm :
  SafeEvaluator.evaluate cpython.parse libm (py "foo")
  = Raise (UnknownName (py "foo")).
Proof. by vm_compute. Qed.

(** C2, as stated, fails: [tau] is not one of the sixteen documented names,
    and [evaluate] resolves it (to the constant of the [math] module). *)
Lemma evaluate_resolves_undocumented_name :
  (py "tau" ∉ documented_names)
  /\ SafeEvaluator.evaluate cpython.parse libm_const (py "tau")
     = Return (VFloat math.tau).
Proof.
  split; [|by vm_compute].
  apply (bool_decide_eq_false_1 _). by vm_compute.
Qed.

(** The older variant's table lacks [min] and [max]. *)
Example safe_eval_min_not_allowed libm :
  Reservation.safe_eval cpython.parse libm (py "min(3,1,2)")
  = Raise (NameNotAllowed (py "min"))
  /\ SafeEvaluator.evaluate cpython.parse libm (py "min(3,1,2)")
     = Return (VInt 1).
Proof. split; by vm_compute. Qed.

(** ** Subscripts in the older variant *)

(** C3. The whitelist of [Reservation.py] holds [Subscript], [Index] and
    [Slice]; [safe_eval] evaluates the subscript of a tuple by an integer
    and returns the selected element. *)
Theorem safe_eval_evaluates_subscript (libm : Libm) :
  (ast.Subscript ∈ Reservation.ALLOWED_NODES
   /\ ast.Index ∈ Reservation.ALLOWED_NODES
   /\ ast.Slice ∈ Reservation.ALLOWED_NODES)
  /\ Reservation.safe_eval cpython.parse libm (py "(1,2)[0]")
     = Return (VInt 1).
Proof.
  split; [|by vm_compute].
  repeat split; apply (bool_decide_unpack _); by vm_compute.
Qed.

(** [Main.py] refuses the same input. *)
Example evaluate_refuses_subscript libm :
  SafeEvaluator.evaluate cpython.parse libm (py "(1,2)[0]")
  = Raise (UnsupportedOperation ast.Subscript).
Proof. by vm_compute. Qed.

(** ** The alias glyphs *)

(** C7, on the code. The literals that line 54 of [Main.py] replaces are
    not the glyphs: the file holds the two-character sequences that the
    UTF-8 bytes of the multiplication sign, the division sign and the Greek
    letter pi give when read in a one-byte code page.  The multiplication
    sign itself is left in place, the parser refuses it, and [evaluate]
    fails where the same input with an asterisk yields 6.  The older
    variant, whose literals are the glyphs, yields 6 on both. *)
Theorem evaluate_multiplication_sign_not_replaced (libm : Libm) :
  SafeEvaluator.normalize (py "2×3") = py "2×3"
  /\ SafeEvaluator.evaluate cpython.parse libm (py "2×3") = Raise SyntaxErr
  /\ SafeEvaluator.evaluate cpython.parse libm (py "2*3") = Return (VInt 6)
  /\ Reservation.safe_eval cpython.parse libm (py "2×3") = Return (VInt 6)
  /\ Reservation.safe_eval cpython.parse libm (py "2*3") = Return (VInt 6).
Proof. repeat split; by vm_compute. Qed.

(** The caret, an ASCII character, is replaced as documented. *)
Example evaluate_caret libm :
  SafeEvaluator.evaluate cpython.parse libm (py "2^3") = Return (VInt 8).
Proof. by vm_compute. Qed.

(** What the literals of line 54 are, as code points. *)
Example line_54_literals :
  py "Ã—" = [0xC3; 0x2014]%N /\ py "Ã·" = [0xC3; 0xB7]%N
  /\ py "Ï€" = [0xCF; 0x20AC]%N /\ py "×" = [0xD7]%N.
Proof. repeat split. Qed.

(** ** Complex results *)



(** The example of the claim, for every C library: a negative base with a
    fractional exponent goes through the complex power, and the result is
    returned as a number only when its imaginary part is zero. *)
Example evaluate_negative_base_fractional_power libm :
  SafeEvaluator.evaluate cpython.parse libm (py "(-8)**0.5")
  = let len := c_pow libm (c_hypot libm (-8) 0) 0.5 in
    let phase := (c_atan2 libm 0 (-8) * 0.5)%float in
    let re := (len * c_cos libm phase)%float in
    let im := (len * c_sin libm phase)%float in
    if is_infinity re || is_infinity im then Raise OverflowError
    else if (im =? 0)%float then Return (VFloat re)
    else Raise ComplexNotSupported.
Proof.
  destruct libm as [pow hypot atan2 cos sin]. vm_compute.
  repeat match goal with
         | |- context [if ?c then _ else _] => destruct c
         end; reflexivity.
Qed.

(** The square root of a negative number is a domain error of the [math]
    module, not a complex result. *)
Example evaluate_sqrt_negative libm :
  SafeEvaluator.evaluate cpython.parse libm (py "sqrt(-1)")
  = Raise MathDomainError.
Proof. by vm_compute. Qed.

(** C10. When the evaluation yields a complex number whose imaginary part
    is zero, [evaluate] does not fail: it returns the real part, a float. *)
Theorem evaluate_complex_zero_imaginary
  (ast_parse : pystr -> outcome ast_mod) (libm : Libm)
  (expr : pystr) (tree : ast_mod) (re im : float) :
  str.strip expr <> [] ->
  ast_parse (SafeEvaluator.normalize (str.strip expr)) = Return tree ->
  SafeEvaluator.check (walk (MOD tree)) = Return tt ->
  eval libm SafeEvaluator.ALLOWED_NAMES tree = Return (VComplex re im) ->
  (im =? 0)%float = true ->
  SafeEvaluator.evaluate ast_parse libm expr = Return (VFloat re).
Proof.
  intros Hs Hp Hc He Him.
  rewrite (evaluate_parsed _ _ _ _ Hs Hp), Hc, He. simpl. by rewrite Him.
Qed.

Lemma evaluate_complex_zero_imaginary_witness :
  SafeEvaluator.evaluate cpython.parse libm_const (py "1j*1j")
  = Return (VFloat (-1)).
Proof.
  apply (evaluate_complex_zero_imaginary cpython.parse libm_const (py "1j*1j")
           (Expression (BinOp (Constant (VComplex 0 1)) Mult
                              (Constant (VComplex 0 1))))
           (-1)%float 0%float); by vm_compute.
Defined.

(** The older variant returns the complex number as it is. *)
Example safe_eval_returns_complex libm :
  Reservation.safe_eval cpython.parse libm (py "2+3j")
  = Return (VComplex 2 3).
Proof. by vm_compute. Qed.

(** ** Division by zero *)

Lemma binop_div_zero libm a b :
  is_number a = true -> is_number b = true -> is_zero_number b = true ->
  binop libm Div a b
  = Raise (if left_operand_overflows a b then OverflowError
           else ZeroDivisionError).
Proof.
  intros Ha Hb Hz.
  destruct a as [n|x|ar ai| | | | |], b as [m|y|br bi| | | | |];
    try discriminate; simpl in Hz;
    try (apply Z.eqb_eq in Hz as ->);
    try (apply andb_prop in Hz as [Hr Hi]).
  - reflexivity.
  - cbn. unfold pyfloat.of_int, is_infinity.
    destruct (abs (pyfloat.nearest n) =? infinity)%float; cbn;
      [done|by rewrite Hz].
  - cbn. unfold pyfloat.of_int, is_infinity.
    destruct (abs (pyfloat.nearest n) =? infinity)%float; cbn;
      [done|by rewrite Hr, Hi].
  - reflexivity.
  - cbn. by rewrite Hz.
  - cbn. by rewrite Hr, Hi.
  - reflexivity.
  - cbn. by rewrite Hz.
  - cbn. by rewrite Hr, Hi.
Qed.

(** C8, as the code has it. For every input [l / r] that passes the
    validation, whose left operand evaluates to a number and whose right
    operand evaluates to a zero, [evaluate] raises an exception and yields no
    number: [ZeroDivisionError], except when the left value is an [int] too
    large for a [float] and the right value is a [float] or a [complex],
    where the conversion of the left value fails first with
    [OverflowError]. *)
Theorem evaluate_division_by_zero
  (ast_parse : pystr -> outcome ast_mod) (libm : Libm)
  (l r : expr) (a b : value) (expr : pystr) :
  str.strip expr <> [] ->
  ast_parse (SafeEvaluator.normalize (str.strip expr))
  = Return (Expression (BinOp l Div r)) ->
  SafeEvaluator.check (walk (MOD (Expression (BinOp l Div r)))) = Return tt ->
  eval_expr libm SafeEvaluator.ALLOWED_NAMES l = Return a ->
  eval_expr libm SafeEvaluator.ALLOWED_NAMES r = Return b ->
  is_number a = true -> is_number b = true -> is_zero_number b = true ->
  SafeEvaluator.evaluate ast_parse libm expr
  = Raise (if left_operand_overflows a b then OverflowError
           else ZeroDivisionError).
Proof.
  intros Hs Hp Hc Hl Hr Ha Hb Hz.
  rewrite (evaluate_parsed _ _ _ _ Hs Hp), Hc.
  cbn [mbind outcome_bind eval eval_expr]. rewrite Hl, Hr.
  cbn [mbind outcome_bind]. by rewrite (binop_div_zero libm a b Ha Hb Hz).
Qed.

Lemma evaluate_division_by_zero_witness :
  SafeEvaluator.evaluate cpython.parse libm_const (py "5/0")
  = Raise ZeroDivisionError.
Proof.
  apply (evaluate_division_by_zero cpython.parse libm_const
           (Constant (VInt 5)) (Constant (VInt 0)) (VInt 5) (VInt 0)
           (py "5/0"));
    by vm_compute.
Defined.

Example evaluate_float_division_by_zero libm :
  SafeEvaluator.evaluate cpython.parse libm (py "1.5/0.0")
  = Raise ZeroDivisionError.
Proof. by vm_compute. Qed.

(** C8, as stated, fails on an input whose right operand is a float zero and
    whose left operand is an integer beyond the floats: the failure is the
    overflow of the conversion, not the division by zero. *)
Lemma evaluate_division_overflow_before_zero :
  cpython.parse (py "10**400/0.0")
  = Return (Expression (BinOp (BinOp (Constant (VInt 10)) Pow
                                     (Constant (VInt 400)))
                              Div (Constant (VFloat 0))))
  /\ is_zero_number (VFloat 0) = true
  /\ SafeEvaluator.evaluate cpython.parse libm_const (py "10**400/0.0")
     = Raise OverflowError
  /\ OverflowError <> ZeroDivisionError.
Proof. repeat split; by vm_compute. Qed.

(** ** The square root and the factorial *)






Example evaluate_factorial_negative libm :
  SafeEvaluator.evaluate cpython.parse libm (py "factorial(-1)")
  = Raise FactorialNegative.
Proof. by vm_compute. Qed.

Example evaluate_factorial_fractional libm :
  SafeEvaluator.evaluate cpython.parse libm (py "factorial(2.5)")
  = Raise FactorialNotIntegral.
Proof. by vm_compute. Qed.

(** ** The number converter *)

(** Decides the comparisons of a code point with constants from the
    bounds in the context. *)
Ltac decide_comparisons :=
  repeat match goal with
  | |- context [(?a <=? ?b)%N] =>
    first [ rewrite (proj2 (N.leb_le a b)) by lia
          | rewrite (proj2 (N.leb_gt a b)) by lia ]
  | |- context [(?a =? ?b)%N] =>
    first [ rewrite (proj2 (N.eqb_eq a b)) by lia
          | rewrite (proj2 (N.eqb_neq a b)) by lia ]
  | |- context [(?a <? ?b)%Z] =>
    first [ rewrite (proj2 (Z.ltb_lt a b)) by lia
          | rewrite (proj2 (Z.ltb_ge a b)) by lia ]
  | |- context [(?a =? ?b)%Z] =>
    first [ rewrite (proj2 (Z.eqb_eq a b)) by lia
          | rewrite (proj2 (Z.eqb_neq a b)) by lia ]
  end.

(** The code points that are digits of a base up to sixteen. *)
Lemma is_digit_of_range base c :
  base <= 16 -> is_digit_of base c = true ->
  ((0x30 <= c <= 0x39)%N /\ Z.of_N c - 0x30 < base
   /\ pytext.digit_value c = Some (Z.of_N c - 0x30))
  \/ ((0x61 <= c <= 0x66)%N /\ Z.of_N c - 0x61 + 10 < base
      /\ pytext.digit_value c = Some (Z.of_N c - 0x61 + 10))
  \/ ((0x41 <= c <= 0x46)%N /\ Z.of_N c - 0x41 + 10 < base
      /\ pytext.digit_value c = Some (Z.of_N c - 0x41 + 10)).
Proof.
  intros Hb. unfold is_digit_of, pytext.digit_value.
  destruct ((0x30 <=? c) && (c <=? 0x39))%N eqn:E1;
    [|destruct ((0x61 <=? c) && (c <=? 0x7A))%N eqn:E2;
      [|destruct ((0x41 <=? c) && (c <=? 0x5A))%N eqn:E3; [|done]]];
    intros Hlt%Z.ltb_lt;
    match goal with
    | E : (_ && _)%bool = true |- _ =>
      apply andb_prop in E as [Hlo%N.leb_le Hhi%N.leb_le]
    end;
    [left|right; left|right; right]; repeat split; lia.
Qed.

Lemma digit_not_space base c :
  base <= 16 -> is_digit_of base c = true -> str.isspace c = false.
Proof.
  intros Hb Hc.
  destruct (is_digit_of_range base c Hb Hc) as [[? _]|[[? _]|[? _]]];
    unfold str.isspace; decide_comparisons; reflexivity.
Qed.

Lemma forallb_Forall {A} (f : A -> bool) l :
  forallb f l = true <-> Forall (fun x => f x = true) l.
Proof.
  induction l as [|a l IH]; simpl; [by split|].
  rewrite andb_true_iff, IH, Forall_cons. tauto.
Qed.

(** *** Blank space and digit text *)

Lemma replace_spaces s :
  str.replace s (py " ") [] = filter (fun c => c <> 0x20%N) s.
Proof.
  change (py " ") with [0x20%N]. unfold str.replace.
  induction s as [|c s IH]; [done|].
  cbn [str.replace_from str.startswith length Nat.sub app].
  replace (str.startswith s []) with true by (by destruct s).
  rewrite andb_true_r, IH, filter_cons.
  destruct (N.eqb_spec 0x20 c) as [<-|Hne].
  - by rewrite decide_False by (by intros []).
  - by rewrite decide_True by congruence.
Qed.

Lemma lstrip_head s :
  match str.lstrip s with
  | [] => True
  | c :: _ => str.isspace c = false
  end.
Proof.
  induction s as [|c s IH]; simpl; [done|].
  by destruct (str.isspace c) eqn:Hc.
Qed.

Lemma lstrip_id s :
  Forall (fun c => str.isspace c = false) s -> str.lstrip s = s.
Proof. destruct 1 as [|c s Hc _]; simpl; [done|]. by rewrite Hc. Qed.

Lemma filter_rev {A} (P : A -> Prop) `{!forall x, Decision (P x)} (l : list A) :
  filter P (rev l) = rev (filter P l).
Proof.
  induction l as [|a l IH]; simpl; [done|].
  rewrite filter_app, IH, !filter_cons, filter_nil.
  destruct (decide (P a)); simpl; [done|by rewrite app_nil_r].
Qed.

Lemma filter_all {A} (P : A -> Prop) `{!forall x, Decision (P x)} (l : list A) :
  Forall P l -> filter P l = l.
Proof.
  induction 1 as [|a l Ha _ IH]; [done|].
  by rewrite filter_cons_True, IH.
Qed.

(** Cleaned text never ends with a line feed: [$] matches at its end
    only. *)
Lemma clean_before_dollar v :
  re.before_dollar (NumberConverter.clean v) = NumberConverter.clean v.
Proof.
  unfold re.before_dollar, NumberConverter.clean.
  rewrite replace_spaces, <- filter_rev.
  unfold str.strip, str.rstrip. rewrite rev_involutive.
  pose proof (lstrip_head (rev (str.lstrip v))) as Hh.
  destruct (str.lstrip (rev (str.lstrip v))) as [|c t]; [done|].
  rewrite filter_cons.
  destruct (decide (c <> 0x20%N)) as [_|Hsp].
  - destruct (N.eqb_spec c 0x0A) as [->|_]; [by vm_compute in Hh|done].
  - destruct (decide (c = 0x20%N)) as [->|]; [by vm_compute in Hh|done].
Qed.

(** Text without blank space is not changed by the cleaning. *)
Lemma clean_plain s :
  Forall (fun c => str.isspace c = false) s -> NumberConverter.clean s = s.
Proof.
  intros Hsp. unfold NumberConverter.clean, str.strip, str.rstrip.
  rewrite (lstrip_id s Hsp), lstrip_id, rev_involutive, replace_spaces.
  - apply filter_all. eapply Forall_impl; [exact Hsp|].
    intros c Hc ->. by vm_compute in Hc.
  - apply Forall_forall. intros c Hc%list_elem_of_In%in_rev%list_elem_of_In.
    by eapply Forall_forall in Hsp.
Qed.

Section digits.
Variable base : Z.
Hypothesis base_ge : 2 <= base.
Hypothesis base_le : base <= 16.

Local Abbreviation digit := (fun c => is_digit_of base c = true).

Lemma digits_clean ds : Forall digit ds -> NumberConverter.clean ds = ds.
Proof.
  intros Hd. apply clean_plain.
  eapply Forall_impl; [exact Hd|]. intros c. by apply digit_not_space.
Qed.

Lemma digits_before_dollar ds :
  Forall digit ds -> re.before_dollar ds = ds.
Proof.
  intros Hd. rewrite <- (digits_clean ds Hd).
  apply clean_before_dollar.
Qed.
End digits.

Section positional.
Variable base : Z.
Hypothesis base_ge : 2 <= base.
Hypothesis base_le : base <= 16.

Local Abbreviation digit := (fun c => is_digit_of base c = true).
Local Abbreviation step :=
  (fun acc c => base * acc + default 0 (pytext.digit_value c)).





Lemma digit_plain c :
  digit c ->
  ((0x80 <=? c) || (c =? 0x5F) || str.isspace c)%N = false
  /\ (c =? 0x2D)%N = false /\ (c =? 0x2B)%N = false.
Proof.
  intros Hc. rewrite (digit_not_space base c base_le Hc).
  destruct (is_digit_of_range base c base_le Hc)
    as [(? & ? & _)|[(? & ? & _)|(? & ? & _)]];
    decide_comparisons; done.
Qed.


Lemma digits_plain ds :
  Forall digit ds ->
  existsb (fun c => (0x80 <=? c) || (c =? 0x5F) || str.isspace c)%N ds
  = false.
Proof.
  induction 1 as [|c ds Hc _ IH]; [done|]. simpl.
  by rewrite (proj1 (digit_plain c Hc)), IH.
Qed.


(** *** The digits of a number *)

Lemma digit_char_value d :
  0 <= d < base ->
  pytext.digit_value (pytext.digit_char d) = Some d
  /\ digit (pytext.digit_char d).
Proof.
  intros Hd.
  assert (Hv : pytext.digit_value (pytext.digit_char d) = Some d).
  { unfold pytext.digit_char, pytext.digit_value.
    destruct (Z.ltb_spec d 10); decide_comparisons; simpl; f_equal; lia. }
  split; [done|]. unfold is_digit_of. rewrite Hv. apply Z.ltb_lt. lia.
Qed.

Lemma digits_from_app fuel : forall n acc,
  pytext.digits_from fuel base n acc
  = pytext.digits_from fuel base n [] ++ acc.
Proof.
  induction fuel as [|fuel IH]; intros n acc; [done|]. simpl.
  destruct (n <? base); [done|].
  rewrite (IH _ (_ :: acc)), (IH _ [_]), <- app_assoc. done.
Qed.


Lemma log2_fuel n : 0 <= n -> n < 2 ^ Z.of_nat (S (Z.to_nat (Z.log2 n))).
Proof.
  intros Hn. rewrite Nat2Z.inj_succ, Z2Nat.id by apply Z.log2_nonneg.
  destruct (Z.eq_dec n 0) as [->|]; [done|].
  apply Z.log2_spec. lia.
Qed.


End positional.

Section round_trip.
Variable base : Z.
Hypothesis base_ge : 2 <= base.
Hypothesis base_le : base <= 16.

Local Abbreviation digit := (fun c => is_digit_of base c = true).
Local Abbreviation step :=
  (fun acc c => base * acc + default 0 (pytext.digit_value c)).
Local Abbreviation up :=
  (fun c => if (0x61 <=? c) && (c <=? 0x7A) then c - 0x20 else c)%N.

(** Upper case keeps a digit a digit of the same value. *)
Lemma up_digit c :
  digit c ->
  pytext.digit_value (up c) = pytext.digit_value c /\ digit (up c).
Proof.
  intros Hc.
  assert (Hv : pytext.digit_value (up c) = pytext.digit_value c).
  { destruct (is_digit_of_range base c base_le Hc)
      as [(? & ? & ->)|[(? & ? & ->)|(? & ? & ->)]];
      unfold pytext.digit_value; decide_comparisons; simpl;
      decide_comparisons; simpl; f_equal; lia. }
  split; [done|]. unfold is_digit_of in *. by rewrite Hv.
Qed.

Lemma upper_digits ds :
  Forall digit ds ->
  Forall digit (str.upper ds)
  /\ forall acc, foldl step acc (str.upper ds) = foldl step acc ds.
Proof.
  induction 1 as [|c ds Hc _ [IH1 IH2]]; [done|].
  destruct (up_digit c Hc) as [Hv Hd]. split.
  - by constructor.
  - intros acc. cbn [str.upper fmap list_fmap foldl]. rewrite Hv. apply IH2.
Qed.




(** Reading after rendering gives the number back. *)
Lemma digits_from_number fuel : forall n acc,
  0 <= n < 2 ^ Z.of_nat fuel ->
  foldl step 0 (pytext.digits_from fuel base n acc) = foldl step n acc.
Proof.
  induction fuel as [|fuel IH]; intros n acc Hn.
  - simpl in *. by replace n with 0 by lia.
  - simpl. destruct (Z.ltb_spec n base) as [Hlt|Hge].
    + cbn [foldl].
      rewrite (proj1 (digit_char_value base base_le n ltac:(lia))).
      cbn [default from_option id]. f_equal. lia.
    + rewrite Nat2Z.inj_succ, Z.pow_succ_r in Hn by lia.
      assert (0 < n / base) by (apply Z.div_str_pos; lia).
      assert (n / base <= n / 2) by (apply Z.div_le_compat_l; lia).
      assert (n / 2 < 2 ^ Z.of_nat fuel)
        by (apply Z.div_lt_upper_bound; lia).
      rewrite IH by lia. cbn [foldl].
      pose proof (Z.mod_pos_bound n base ltac:(lia)).
      rewrite (proj1 (digit_char_value base base_le (n mod base) ltac:(lia))).
      cbn [default from_option id]. f_equal.
      pose proof (Z.div_mod n base). lia.
Qed.

Lemma digits_from_digit fuel : forall n acc,
  0 <= n -> Forall digit acc ->
  Forall digit (pytext.digits_from fuel base n acc).
Proof.
  induction fuel as [|fuel IH]; intros n acc Hn Hacc; [done|]. simpl.
  destruct (Z.ltb_spec n base) as [Hlt|Hge].
  - constructor; [|done]. by apply digit_char_value.
  - apply IH.
    + apply Z.div_pos; lia.
    + constructor; [|done]. apply digit_char_value; [done|].
      apply Z.mod_pos_bound. lia.
Qed.

Lemma digits_spec n :
  0 <= n ->
  pytext.digits base n <> [] /\ Forall digit (pytext.digits base n)
  /\ digits_number base (pytext.digits base n) = n.
Proof.
  intros Hn. unfold pytext.digits. repeat split.
  - simpl. destruct (n <? base); [done|].
    rewrite digits_from_app. by destruct (pytext.digits_from _ _ _ _).
  - by apply digits_from_digit.
  - unfold digits_number. rewrite digits_from_number; [done|].
    split; [done|]. by apply log2_fuel.
Qed.
End round_trip.

(** *** The converter *)

Lemma bases_lookup name b :
  NumberConverter.BASES !! name = Some b ->
  (name = py "Binary" /\ b = 2) \/ (name = py "Octal" /\ b = 8)
  \/ (name = py "Decimal" /\ b = 10) \/ (name = py "Hexadecimal" /\ b = 16).
Proof.
  unfold NumberConverter.BASES. cbn [list_to_map foldr].
  rewrite !lookup_insert_Some, lookup_empty.
  intros [[<- <-]|[_ [[<- <-]|[_ [[<- <-]|[_ [[<- <-]|[_ [=]]]]]]]]]; tauto.
Qed.

(** The character classes of the four patterns are the digits of the four
    bases. *)
Lemma class_binary c : NumberConverter.is_binary_digit c = is_digit_of 2 c.
Proof.
  apply eq_true_iff_eq. split.
  - unfold NumberConverter.is_binary_digit.
    intros [->%N.eqb_eq| ->%N.eqb_eq]%orb_prop; done.
  - intros Hc. unfold NumberConverter.is_binary_digit.
    destruct (is_digit_of_range 2 c ltac:(lia) Hc)
      as [(? & ? & _)|[(? & ? & _)|(? & ? & _)]]; try lia.
    destruct (N.eqb_spec c 0x30), (N.eqb_spec c 0x31); try done. lia.
Qed.

Lemma class_octal c : NumberConverter.is_octal_digit c = is_digit_of 8 c.
Proof.
  apply eq_true_iff_eq. split.
  - unfold NumberConverter.is_octal_digit, is_digit_of, pytext.digit_value.
    intros [Hlo%N.leb_le Hhi%N.leb_le]%andb_prop.
    by do 2 (decide_comparisons; simpl).
  - intros Hc. unfold NumberConverter.is_octal_digit.
    destruct (is_digit_of_range 8 c ltac:(lia) Hc)
      as [(? & ? & _)|[(? & ? & _)|(? & ? & _)]]; try lia.
    by decide_comparisons.
Qed.

Lemma class_decimal c : cpython.is_digit c = is_digit_of 10 c.
Proof.
  apply eq_true_iff_eq. split.
  - unfold cpython.is_digit, is_digit_of, pytext.digit_value.
    intros [Hlo%N.leb_le Hhi%N.leb_le]%andb_prop.
    by do 2 (decide_comparisons; simpl).
  - intros Hc. unfold cpython.is_digit.
    destruct (is_digit_of_range 10 c ltac:(lia) Hc)
      as [(? & ? & _)|[(? & ? & _)|(? & ? & _)]]; try lia.
    by decide_comparisons.
Qed.

Lemma class_hex c : NumberConverter.is_hex_digit c = is_digit_of 16 c.
Proof.
  apply eq_true_iff_eq. split.
  - unfold NumberConverter.is_hex_digit, is_digit_of, pytext.digit_value.
    intros [[H|H]%orb_prop|H]%orb_prop;
      apply andb_prop in H as [Hlo%N.leb_le Hhi%N.leb_le];
      by do 3 (decide_comparisons; simpl).
  - intros Hc. unfold NumberConverter.is_hex_digit.
    destruct (is_digit_of_range 16 c ltac:(lia) Hc)
      as [(? & ? & _)|[(? & ? & _)|(? & ? & _)]];
      decide_comparisons; by rewrite ?orb_true_r.
Qed.

Lemma match_class_plus_digits cls base s :
  (forall c, cls c = is_digit_of base c) ->
  re.before_dollar s = s ->
  re.match_class_plus cls s = true
  <-> s <> [] /\ Forall (fun c => is_digit_of base c = true) s.
Proof.
  intros Hcls Hs. unfold re.match_class_plus. rewrite Hs.
  rewrite andb_true_iff, negb_true_iff, bool_decide_eq_false, forallb_Forall.
  split; intros [? Hd]; (split; [done|]);
    eapply Forall_impl; try exact Hd; intros c; simpl; by rewrite Hcls.
Qed.

Lemma digits_ascii base s :
  base <= 16 -> Forall (fun c => is_digit_of base c = true) s ->
  existsb (fun c => 0x80 <=? c)%N s = false.
Proof.
  intros Hb. induction 1 as [|c s Hc _ IH]; [done|]. simpl. rewrite IH.
  destruct (is_digit_of_range base c Hb Hc)
    as [(? & ? & _)|[(? & ? & _)|(? & ? & _)]]; by decide_comparisons.
Qed.

(** What [validate_input] accepts, when the text has no minus sign: the
    runs of digits of the base. *)
Lemma validate_input_unsigned value name b :
  NumberConverter.BASES !! name = Some b ->
  head (NumberConverter.clean value) <> Some 0x2D%N ->
  NumberConverter.validate_input value name = Return true ->
  NumberConverter.clean value <> []
  /\ Forall (fun c => is_digit_of b c = true) (NumberConverter.clean value).
Proof.
  intros Hb Hsign. unfold NumberConverter.validate_input. rewrite Hb.
  pose proof (clean_before_dollar value) as Hdollar.
  destruct (bool_decide (NumberConverter.clean value = [])); [done|].
  destruct (bases_lookup name b Hb)
    as [[-> ->]|[[-> ->]|[[-> ->]|[-> ->]]]].
  - rewrite bool_decide_eq_true_2 by done. intros [= H].
    by apply (match_class_plus_digits _ 2 _ class_binary Hdollar).
  - rewrite bool_decide_eq_false_2 by (by vm_compute).
    rewrite bool_decide_eq_true_2 by done. intros [= H].
    by apply (match_class_plus_digits _ 8 _ class_octal Hdollar).
  - rewrite !bool_decide_eq_false_2 by (by vm_compute).
    rewrite bool_decide_eq_true_2 by done. unfold re.match_signed_digits.
    destruct (existsb _ _); [done|]. intros [= H].
    apply (match_class_plus_digits _ 10 _ class_decimal Hdollar).
    destruct (NumberConverter.clean value) as [|c s]; [done|].
    destruct (N.eqb_spec c 0x2D) as [->|]; [done|exact H].
  - rewrite !bool_decide_eq_false_2 by (by vm_compute).
    rewrite bool_decide_eq_true_2 by done. intros [= H].
    by apply (match_class_plus_digits _ 16 _ class_hex Hdollar).
Qed.

Lemma base_bounds name b :
  NumberConverter.BASES !! name = Some b -> 2 <= b <= 16.
Proof.
  intros Hb.
  destruct (bases_lookup name b Hb)
    as [[-> ->]|[[-> ->]|[[-> ->]|[-> ->]]]]; lia.
Qed.

(** Conversely, [validate_input] accepts every run of digits of the base. *)
Lemma validate_input_digits ds name b :
  NumberConverter.BASES !! name = Some b ->
  ds <> [] -> Forall (fun c => is_digit_of b c = true) ds ->
  NumberConverter.validate_input ds name = Return true.
Proof.
  intros Hb Hne Hd. unfold NumberConverter.validate_input.
  pose proof (base_bounds name b Hb) as [Hge Hle].
  rewrite (digits_clean b Hle ds Hd), Hb.
  rewrite bool_decide_eq_false_2 by done.
  pose proof (digits_before_dollar b Hle ds Hd) as Hdollar.
  destruct (bases_lookup name b Hb)
    as [[-> ->]|[[-> ->]|[[-> ->]|[-> ->]]]].
  - rewrite bool_decide_eq_true_2 by done. f_equal.
    by apply (match_class_plus_digits _ 2 _ class_binary Hdollar).
  - rewrite bool_decide_eq_false_2 by (by vm_compute).
    rewrite bool_decide_eq_true_2 by done. f_equal.
    by apply (match_class_plus_digits _ 8 _ class_octal Hdollar).
  - rewrite !bool_decide_eq_false_2 by (by vm_compute).
    rewrite bool_decide_eq_true_2 by done. unfold re.match_signed_digits.
    rewrite (digits_ascii 10 ds) by done. f_equal.
    assert (Hm : re.match_class_plus cpython.is_digit ds = true)
      by by apply (match_class_plus_digits _ 10 _ class_decimal Hdollar).
    destruct ds as [|c s]; [done|].
    destruct (N.eqb_spec c 0x2D) as [->|]; [|done].
    apply Forall_inv in Hd. by vm_compute in Hd.
  - rewrite !bool_decide_eq_false_2 by (by vm_compute).
    rewrite bool_decide_eq_true_2 by done. f_equal.
    by apply (match_class_plus_digits _ 16 _ class_hex Hdollar).
Qed.





Lemma before_dollar_tail c s :
  s <> [] -> re.before_dollar (c :: s) = c :: s -> re.before_dollar s = s.
Proof.
  intros Hne. unfold re.before_dollar. simpl.
  destruct (rev s) as [|x body] eqn:Hrev.
  { apply (f_equal (@rev N)) in Hrev. rewrite rev_involutive in Hrev.
    by subst. }
  simpl. destruct (x =? 0x0A)%N; [|done].
  intros H. apply (f_equal (@length N)) in H.
  rewrite length_rev, length_app in H. simpl in H.
  apply (f_equal (@length N)) in Hrev. rewrite length_rev in Hrev.
  simpl in Hrev. lia.
Qed.


(** A signed text is accepted in base ten only, as a sign before a run of
    digits. *)
Lemma validate_input_signed value name b ds :
  NumberConverter.BASES !! name = Some b ->
  NumberConverter.clean value = 0x2D%N :: ds ->
  NumberConverter.validate_input value name = Return true ->
  name = py "Decimal" /\ ds <> []
  /\ Forall (fun c => is_digit_of 10 c = true) ds.
Proof.
  intros Hb Hclean. unfold NumberConverter.validate_input. rewrite Hb.
  pose proof (clean_before_dollar value) as Hdollar.
  rewrite Hclean in *. rewrite bool_decide_eq_false_2 by done.
  assert (Hsign : forall cls k,
            (forall c, cls c = is_digit_of k c) -> k <= 16 ->
            re.match_class_plus cls (0x2D%N :: ds) = true -> False).
  { intros cls k Hcls Hk Hm.
    apply (match_class_plus_digits _ k _ Hcls Hdollar) in Hm as [_ Hd].
    apply Forall_inv in Hd.
    destruct (is_digit_of_range k _ Hk Hd)
      as [(? & _)|[(? & _)|(? & _)]]; lia. }
  destruct (bases_lookup name b Hb)
    as [[-> ->]|[[-> ->]|[[-> ->]|[-> ->]]]].
  - rewrite bool_decide_eq_true_2 by done. intros [= H].
    by destruct (Hsign _ 2 class_binary ltac:(lia) H).
  - rewrite bool_decide_eq_false_2 by (by vm_compute).
    rewrite bool_decide_eq_true_2 by done. intros [= H].
    by destruct (Hsign _ 8 class_octal ltac:(lia) H).
  - rewrite !bool_decide_eq_false_2 by (by vm_compute).
    rewrite bool_decide_eq_true_2 by done. unfold re.match_signed_digits.
    destruct (existsb _ _); [done|].
    change (0x2D =? 0x2D)%N with true. cbv iota. intros [= H].
    split; [done|].
    assert (Hne : ds <> []).
    { intros ->. by vm_compute in H. }
    split; [done|].
    apply (match_class_plus_digits _ 10 _ class_decimal); [|done].
    by apply (before_dollar_tail 0x2D%N).
  - rewrite !bool_decide_eq_false_2 by (by vm_compute).
    rewrite bool_decide_eq_true_2 by done. intros [= H].
    by destruct (Hsign _ 16 class_hex ltac:(lia) H).
Qed.






Example convert_signed_decimal_round_trip :
  NumberConverter.convert (py "-007") (py "Decimal") (py "Decimal")
  = Return (py "-7")
  /\ NumberConverter.convert (py "-7") (py "Decimal") (py "Decimal")
     = Return (py "-7")
  /\ normalize_number (py "-007") = py "-7".
Proof. repeat split; by vm_compute. Qed.

Example convert_hexadecimal_round_trip :
  NumberConverter.convert (py " 00ff ") (py "Hexadecimal") (py "Decimal")
  = Return (py "255")
  /\ NumberConverter.convert (py "255") (py "Decimal") (py "Hexadecimal")
     = Return (py "FF").
Proof. split; by vm_compute. Qed.


(** The older variant converts without validation; its rendering of a
    negative number drops the sign's place, not the prefix. *)
Example from_decimal_negative :
  Reservation.to_decimal (py "-101") (py "Binary") = Return (-5)
  /\ Reservation.from_decimal (-5) (py "Binary") = Return (py "b101").
Proof. split; by vm_compute. Qed.

(** * Further properties of the sources

    The properties below cover the code around the evaluator and the
    converter: the behaviour of [NumberConverter] on all its inputs, the
    frames and the history of [Main.py] that call them, and the converter of
    [Reservation.py]. *)

(** ** White space *)

Lemma lstrip_suffix s : exists p, s = p ++ str.lstrip s.
Proof.
  induction s as [|c s [p IH]]; [by exists []|]. simpl.
  destruct (str.isspace c).
  - exists (c :: p). simpl. by f_equal.
  - by exists [].
Qed.

Lemma lstrip_trimmed s :
  match s with [] => True | c :: _ => str.isspace c = false end ->
  str.lstrip s = s.
Proof. destruct s as [|c s]; [done|]. simpl. by intros ->. Qed.

Lemma strip_trimmed s : trimmed s -> str.strip s = s.
Proof.
  intros [Hh Hl]. unfold str.strip, str.rstrip.
  rewrite (lstrip_trimmed s Hh), (lstrip_trimmed (rev s) Hl).
  apply rev_involutive.
Qed.

Lemma strip_is_trimmed s : trimmed (str.strip s).
Proof.
  unfold str.strip, str.rstrip, trimmed. rewrite rev_involutive.
  pose proof (lstrip_head (rev (str.lstrip s))) as Hl.
  split; [|done].
  destruct (lstrip_suffix (rev (str.lstrip s))) as [p Hp].
  apply (f_equal (@rev N)) in Hp. rewrite rev_involutive, rev_app_distr in Hp.
  pose proof (lstrip_head s) as Hh. rewrite Hp in Hh.
  destruct (rev (str.lstrip (rev (str.lstrip s)))); [done|exact Hh].
Qed.

Lemma strip_idempotent s : str.strip (str.strip s) = str.strip s.
Proof. apply strip_trimmed, strip_is_trimmed. Qed.

Lemma lstrip_Forall (P : N -> Prop) s : Forall P s -> Forall P (str.lstrip s).
Proof.
  intros H. destruct (lstrip_suffix s) as [p Hp]. rewrite Hp in H.
  by apply Forall_app in H as [_ H].
Qed.

Lemma strip_Forall (P : N -> Prop) s : Forall P s -> Forall P (str.strip s).
Proof.
  intros H. unfold str.strip, str.rstrip.
  by apply List.Forall_rev, lstrip_Forall, List.Forall_rev, lstrip_Forall.
Qed.

Lemma filter_head {A} (P : A -> Prop) `{!forall x, Decision (P x)}
    (Q : A -> Prop) (l : list A) :
  (forall x, Q x -> P x) ->
  match l with [] => True | c :: _ => Q c end ->
  match filter P l with [] => True | c :: _ => Q c end.
Proof.
  intros HQ. destruct l as [|c l]; [done|]. intros Hc.
  by rewrite filter_cons_True by auto.
Qed.

Lemma filter_filter {A} (P : A -> Prop) `{!forall x, Decision (P x)}
    (l : list A) : filter P (filter P l) = filter P l.
Proof.
  apply filter_all. apply list.Forall_forall. intros x Hx.
  apply list_elem_of_filter in Hx. tauto.
Qed.

(** The cleaning of the converter yields trimmed text without spaces, and
    cleaning twice is cleaning once. *)
Lemma clean_trimmed v : trimmed (NumberConverter.clean v).
Proof.
  unfold NumberConverter.clean. rewrite replace_spaces.
  destruct (strip_is_trimmed v) as [Hh Hl].
  assert (HQ : forall x, str.isspace x = false -> x <> 0x20%N).
  { intros x Hx ->. by vm_compute in Hx. }
  split.
  - by apply (filter_head _ (fun c => str.isspace c = false)).
  - rewrite <- filter_rev.
    by apply (filter_head _ (fun c => str.isspace c = false)).
Qed.

Lemma clean_idempotent v :
  NumberConverter.clean (NumberConverter.clean v) = NumberConverter.clean v.
Proof.
  unfold NumberConverter.clean at 1.
  rewrite (strip_trimmed _ (clean_trimmed v)), replace_spaces.
  unfold NumberConverter.clean. rewrite replace_spaces.
  apply filter_filter.
Qed.


Lemma clean_Forall (P : N -> Prop) v :
  Forall P v -> Forall P (NumberConverter.clean v).
Proof.
  intros H. unfold NumberConverter.clean. rewrite replace_spaces.
  apply list.Forall_forall. intros c [_ Hc]%list_elem_of_filter.
  revert c Hc. apply list.Forall_forall. by apply strip_Forall.
Qed.

Lemma validate_input_clean v name :
  NumberConverter.validate_input (NumberConverter.clean v) name
  = NumberConverter.validate_input v name.
Proof. unfold NumberConverter.validate_input. by rewrite clean_idempotent. Qed.


(** ** The converter on every accepted text *)




(** The two shapes of an accepted text: a run of digits of the base, or,
    in base ten, a minus sign before such a run. *)
Lemma validated_shape value name b :
  NumberConverter.BASES !! name = Some b ->
  NumberConverter.validate_input value name = Return true ->
  (NumberConverter.clean value <> []
   /\ Forall (fun c => is_digit_of b c = true) (NumberConverter.clean value))
  \/ (name = py "Decimal" /\ b = 10
      /\ exists ds, NumberConverter.clean value = 0x2D%N :: ds /\ ds <> []
                    /\ Forall (fun c => is_digit_of 10 c = true) ds).
Proof.
  intros Hb Hv.
  destruct (decide (head (NumberConverter.clean value) = Some 0x2D%N))
    as [Hsigned|Hunsigned].
  - right. destruct (NumberConverter.clean value) as [|c ds] eqn:Hclean;
      [done|]. injection Hsigned as ->.
    destruct (validate_input_signed value name b ds Hb Hclean Hv)
      as (-> & Hne & Hd).
    split; [done|]. split; [by vm_compute in Hb; injection Hb|]. eauto.
  - left. by apply (validate_input_unsigned value name b).
Qed.

Lemma validate_input_signed_digits ds :
  ds <> [] -> Forall (fun c => is_digit_of 10 c = true) ds ->
  NumberConverter.validate_input (0x2D%N :: ds) (py "Decimal") = Return true.
Proof.
  intros Hne Hd.
  assert (Hsp : Forall (fun c => str.isspace c = false) (0x2D%N :: ds)).
  { constructor; [done|]. eapply Forall_impl; [exact Hd|].
    intros c. by apply digit_not_space. }
  unfold NumberConverter.validate_input.
  rewrite (clean_plain _ Hsp).
  change (NumberConverter.BASES !! py "Decimal") with (Some 10).
  rewrite (bool_decide_eq_false_2 (0x2D%N :: ds = [])) by done.
  rewrite !bool_decide_eq_false_2 by (by vm_compute).
  rewrite bool_decide_eq_true_2 by done.
  unfold re.match_signed_digits. cbn [existsb].
  rewrite (digits_ascii 10 ds) by done.
  change ((0x80 <=? 0x2D)%N || false) with false. cbv iota.
  change (0x2D =? 0x2D)%N with true. cbv iota. f_equal.
  apply (match_class_plus_digits _ 10 _ class_decimal); [|done].
  by apply (digits_before_dollar 10).
Qed.











Example convert_unknown_target :
  NumberConverter.convert (py "12") (py "Decimal") (py "Ternary") = Return [].
Proof. by vm_compute. Qed.





Example convert_same_base :
  NumberConverter.convert (py " 00 1f ") (py "Hexadecimal") (py "Hexadecimal")
  = Return (py "1F").
Proof. by vm_compute. Qed.



Lemma validate_input_returns value name b :
  NumberConverter.BASES !! name = Some b ->
  (name = py "Decimal" -> Forall (fun c => (c < 0x80)%N) value) ->
  exists ok, NumberConverter.validate_input value name = Return ok.
Proof.
  intros Hb Hascii. unfold NumberConverter.validate_input. rewrite Hb.
  destruct (bool_decide (NumberConverter.clean value = [])); [by eexists|].
  destruct (bases_lookup name b Hb)
    as [[-> ->]|[[-> ->]|[[-> ->]|[-> ->]]]];
    rewrite ?bool_decide_eq_false_2 by (by vm_compute);
    rewrite bool_decide_eq_true_2 by done; try by eexists.
  unfold re.match_signed_digits.
  replace (existsb (fun c => (0x80 <=? c)%N) (NumberConverter.clean value))
    with false; [by eexists|].
  symmetry. apply not_true_is_false.
  intros (c & Hin & Hc%N.leb_le)%existsb_exists.
  pose proof (clean_Forall _ value (Hascii eq_refl)) as Hall.
  apply (proj1 (List.Forall_forall _ _) Hall) in Hin. lia.
Qed.

(** X5. What [validate_input] accepts: on a text that it can judge (any
    text for base two, eight or sixteen, ASCII text for base ten) it
    returns a truth value, and it accepts exactly the texts that, once
    cleaned, are a run of digits that [int] reads in the base, or, for base
    ten, a minus sign before such a run. *)
Theorem validate_input_accepts_digit_runs (value name : pystr) (b : Z) :
  NumberConverter.BASES !! name = Some b ->
  (name = py "Decimal" -> Forall (fun c => (c < 0x80)%N) value) ->
  exists ok,
    NumberConverter.validate_input value name = Return ok
    /\ (ok = true
        <-> exists ds,
              ds <> [] /\ Forall (fun c => is_digit_of b c = true) ds
              /\ (NumberConverter.clean value = ds
                  \/ (name = py "Decimal"
                      /\ NumberConverter.clean value = 0x2D%N :: ds))).
Proof.
  intros Hb Hascii.
  destruct (validate_input_returns value name b Hb Hascii) as [ok Hok].
  exists ok. split; [done|]. split.
  - intros ->. destruct (validated_shape value name b Hb Hok)
      as [[Hne Hd]|(-> & -> & ds & Hc & Hne & Hd)]; eauto 10.
  - intros (ds & Hne & Hd & Hcase).
    assert (Hv : NumberConverter.validate_input value name = Return true).
    { destruct Hcase as [Hc|[-> Hc]]; rewrite <- validate_input_clean, Hc.
      - by apply (validate_input_digits ds name b).
      - assert (b = 10) as -> by (by vm_compute in Hb; injection Hb).
        by apply validate_input_signed_digits. }
    rewrite Hv in Hok. by injection Hok.
Qed.

Lemma validate_input_accepts_digit_runs_witness :
  exists ok,
    NumberConverter.validate_input (py " 7 f ") (py "Hexadecimal") = Return ok
    /\ (ok = true
        <-> exists ds,
              ds <> [] /\ Forall (fun c => is_digit_of 16 c = true) ds
              /\ (NumberConverter.clean (py " 7 f ") = ds
                  \/ (py "Hexadecimal" = py "Decimal"
                      /\ NumberConverter.clean (py " 7 f ") = 0x2D%N :: ds))).
Proof.
  apply (validate_input_accepts_digit_runs (py " 7 f ") (py "Hexadecimal") 16);
    by vm_compute.
Defined.

Example validate_input_sign_in_binary :
  NumberConverter.validate_input (py "-101") (py "Binary") = Return false
  /\ NumberConverter.validate_input (py "-101") (py "Decimal") = Return true.
Proof. split; by vm_compute. Qed.

(** X6. A source base that is not a key of [BASES]: a blank text is refused
    as an invalid number, as for every base; any other text makes the
    lookup in [validate_input] fail, and [convert] ends with this
    [KeyError], not with its own [ValueError]. *)
Theorem convert_unknown_source_base (value from_base to_base : pystr) :
  NumberConverter.BASES !! from_base = None ->
  NumberConverter.convert value from_base to_base
  = if bool_decide (NumberConverter.clean value = [])
    then Raise (InvalidNumber from_base)
    else Raise (KeyError from_base).
Proof.
  intros Hb. unfold NumberConverter.convert, NumberConverter.validate_input.
  rewrite clean_idempotent, Hb.
  by destruct (bool_decide (NumberConverter.clean value = [])).
Qed.

Lemma convert_unknown_source_base_witness :
  NumberConverter.convert (py "12") (py "Ternary") (py "Decimal")
  = if bool_decide (NumberConverter.clean (py "12") = [])
    then Raise (InvalidNumber (py "Ternary"))
    else Raise (KeyError (py "Ternary")).
Proof.
  apply (convert_unknown_source_base (py "12") (py "Ternary") (py "Decimal")).
  by vm_compute.
Defined.

(** ** The converter frame *)




Example _convert_hexadecimal :
  ConverterFrame._convert
    {| ConverterFrame.input_var := py " ff ";
       ConverterFrame.from_var := py "Hexadecimal";
       ConverterFrame.result_vars :=
         ConverterFrame.result_vars ConverterFrame._create_interface |}
  = Return {| ConverterFrame.input_var := py " ff ";
              ConverterFrame.from_var := py "Hexadecimal";
              ConverterFrame.result_vars :=
                [ (py "Binary", py "11111111"); (py "Octal", py "377");
                  (py "Decimal", py "255"); (py "Hexadecimal", py "FF") ] |}.
Proof. by vm_compute. Qed.

Example _convert_invalid :
  ConverterFrame._convert
    {| ConverterFrame.input_var := py "12";
       ConverterFrame.from_var := py "Binary";
       ConverterFrame.result_vars :=
         ConverterFrame.result_vars ConverterFrame._create_interface |}
  = Return (ConverterFrame.set_all (py "Invalid input")
              {| ConverterFrame.input_var := py "12";
                 ConverterFrame.from_var := py "Binary";
                 ConverterFrame.result_vars :=
                   ConverterFrame.result_vars
                     ConverterFrame._create_interface |}).
Proof. by vm_compute. Qed.

(** ** The history *)

Lemma slice_to_take {A} (k : Z) (l : list A) :
  0 <= k -> slice_to k l = take (Z.to_nat k) l.
Proof.
  intros Hk. unfold slice_to. by rewrite (proj2 (Z.ltb_ge k 0)) by lia.
Qed.

Lemma take_app_take {A} (a b : list A) : forall k j,
  (k <= j)%nat -> take k (a ++ take j b) = take k (a ++ b).
Proof.
  induction a as [|x a IH]; intros k j Hkj.
  - cbn [app]. rewrite take_take. f_equal. lia.
  - destruct k as [|k]; [done|]. cbn [app take]. f_equal. apply IH. lia.
Qed.

(** One [add]: the new entry in front, the list cut at [max_history]. *)
Lemma add_history expression result now self :
  0 <= HistoryManager.max_history self ->
  HistoryManager.history (HistoryManager.add expression result now self).1
  = take (Z.to_nat (HistoryManager.max_history self))
      (entry_of (expression, result, now) :: HistoryManager.history self)
  /\ HistoryManager.max_history
       (HistoryManager.add expression result now self).1
     = HistoryManager.max_history self.
Proof.
  intros Hmax. unfold HistoryManager.add.
  cbn [HistoryManager.with_history HistoryManager.history
       HistoryManager.max_history fst].
  change (entry_of (expression, result, now))
    with {| HistoryManager.expression := expression;
            HistoryManager.result := result;
            HistoryManager.timestamp := now |}.
  set (h := _ :: HistoryManager.history self).
  destruct (Z.gtb_spec (Z.of_nat (length h)) (HistoryManager.max_history self))
    as [Hgt|Hle]; (split; [|done]);
    cbn [HistoryManager.with_history HistoryManager.history].
  - by rewrite slice_to_take.
  - rewrite take_ge; [done|]. lia.
Qed.

Lemma adds_history items : forall self,
  0 <= HistoryManager.max_history self ->
  items <> [] ->
  HistoryManager.history (adds items self)
  = take (Z.to_nat (HistoryManager.max_history self))
      (rev (entry_of <$> items) ++ HistoryManager.history self)
  /\ HistoryManager.max_history (adds items self)
     = HistoryManager.max_history self.
Proof.
  induction items as [|[[e r] now] items IH]; intros self Hmax Hne; [done|].
  cbn [adds foldl]. fold (adds items ((HistoryManager.add e r now self).1)).
  destruct (add_history e r now self Hmax) as [Hh Hm].
  destruct items as [|item items].
  - cbn [adds foldl fmap list_fmap rev app]. by rewrite Hh, Hm.
  - destruct (IH (HistoryManager.add e r now self).1) as [IHh IHm];
      [by rewrite Hm|done|].
    rewrite IHh, IHm, Hm, Hh. split; [|done].
    change (rev (entry_of <$> (e, r, now) :: item :: items))
      with (rev (entry_of <$> item :: items) ++ [entry_of (e, r, now)]).
    rewrite <- app_assoc. by apply take_app_take.
Qed.

(** X8. The history is kept newest first and bounded: after any calls of
    [add], whatever the history held before (a file may have brought more
    than [max_history] entries), it is the entries just added, the last one
    first, followed by the earlier history, cut at [max_history]; and
    [get_recent] returns the first [limit] of them. *)
Theorem history_newest_first_bounded
  (items : list (pystr * pystr * pystr)) (self : HistoryManager.t)
  (limit : Z) :
  0 <= HistoryManager.max_history self -> items <> [] -> 0 <= limit ->
  HistoryManager.history (adds items self)
  = take (Z.to_nat (HistoryManager.max_history self))
      (rev (entry_of <$> items) ++ HistoryManager.history self)
  /\ Z.of_nat (length (HistoryManager.history (adds items self)))
     <= HistoryManager.max_history self
  /\ HistoryManager.get_recent limit (adds items self)
     = take (Z.to_nat (Z.min limit (HistoryManager.max_history self)))
         (rev (entry_of <$> items) ++ HistoryManager.history self).
Proof.
  intros Hmax Hne Hlimit.
  destruct (adds_history items self Hmax Hne) as [Hh Hm].
  split; [done|]. split.
  - rewrite Hh, length_take. lia.
  - unfold HistoryManager.get_recent. rewrite slice_to_take, Hh by done.
    rewrite take_take. f_equal. lia.
Qed.

Lemma history_newest_first_bounded_witness :
  HistoryManager.history
    (adds [ (py "1+1", py "2", py "2024-01-01T10:00:00");
            (py "2*3", py "6", py "2024-01-01T10:00:05") ]
       {| HistoryManager.filename := py "calc_history.json";
          HistoryManager.history := [];
          HistoryManager.max_history := 100 |})
  = take (Z.to_nat 100)
      (rev (entry_of <$> [ (py "1+1", py "2", py "2024-01-01T10:00:00");
                           (py "2*3", py "6", py "2024-01-01T10:00:05") ])
       ++ [])
  /\ Z.of_nat
       (length
          (HistoryManager.history
             (adds [ (py "1+1", py "2", py "2024-01-01T10:00:00");
                     (py "2*3", py "6", py "2024-01-01T10:00:05") ]
                {| HistoryManager.filename := py "calc_history.json";
                   HistoryManager.history := [];
                   HistoryManager.max_history := 100 |})))
     <= 100
  /\ HistoryManager.get_recent 20
       (adds [ (py "1+1", py "2", py "2024-01-01T10:00:00");
               (py "2*3", py "6", py "2024-01-01T10:00:05") ]
          {| HistoryManager.filename := py "calc_history.json";
             HistoryManager.history := [];
             HistoryManager.max_history := 100 |})
     = take (Z.to_nat (Z.min 20 100))
         (rev (entry_of <$> [ (py "1+1", py "2", py "2024-01-01T10:00:00");
                              (py "2*3", py "6", py "2024-01-01T10:00:05") ])
          ++ []).
Proof.
  apply (history_newest_first_bounded
           [ (py "1+1", py "2", py "2024-01-01T10:00:00");
             (py "2*3", py "6", py "2024-01-01T10:00:05") ]
           {| HistoryManager.filename := py "calc_history.json";
              HistoryManager.history := [];
              HistoryManager.max_history := 100 |} 20);
    [by vm_compute|done|lia].
Defined.

(** ** The text that reaches the parser *)

Lemma evaluate_strip (ast_parse : pystr -> outcome ast_mod) libm expr :
  SafeEvaluator.evaluate ast_parse libm (str.strip expr)
  = SafeEvaluator.evaluate ast_parse libm expr.
Proof.
  unfold SafeEvaluator.evaluate. rewrite strip_idempotent.
  destruct (decide (str.strip expr = [])) as [Hs|Hs].
  - rewrite Hs. rewrite (bool_decide_eq_true_2 ([] = [])) by done.
    by rewrite !orb_true_r.
  - rewrite (bool_decide_eq_false_2 (str.strip expr = [])) by done.
    rewrite (bool_decide_eq_false_2 (expr = [])) by (by intros ->).
    done.
Qed.

(** X9. White space around an expression never changes what [evaluate]
    does with it: the outcome on a text is the outcome on the stripped
    text, for every parser. *)
Theorem evaluate_ignores_surrounding_space
  (ast_parse : pystr -> outcome ast_mod) (libm : Libm) (expr : pystr) :
  SafeEvaluator.evaluate ast_parse libm (str.strip expr)
  = SafeEvaluator.evaluate ast_parse libm expr.
Proof. apply evaluate_strip. Qed.

Lemma replace_from_elements old new s c : forall skip,
  c ∈ str.replace_from skip old new s -> c ∈ s \/ c ∈ new.
Proof.
  induction s as [|x s IH]; intros skip; cbn [str.replace_from].
  - intros H. by apply elem_of_nil in H.
  - destruct skip as [|k].
    + destruct (str.startswith (x :: s) old).
      * intros [H|H]%elem_of_app; [by right|].
        destruct (IH _ H) as [?|?];
          [left; by apply elem_of_cons; right|by right].
      * intros [->|H]%elem_of_cons; [left; by apply elem_of_cons; left|].
        destruct (IH _ H) as [?|?];
          [left; by apply elem_of_cons; right|by right].
    + intros H. destruct (IH _ H) as [?|?];
        [left; by apply elem_of_cons; right|by right].
Qed.

(** A replacement brings in no code point beyond those of the new text. *)
Lemma replace_elements s old new c :
  old <> [] -> c ∈ str.replace s old new -> c ∈ s \/ c ∈ new.
Proof.
  intros Hold. unfold str.replace. destruct old as [|o old]; [done|].
  apply replace_from_elements.
Qed.

(** The replacement of a code point leaves none of it. *)
Lemma replace_one_removes s o new :
  o ∉ new -> o ∉ str.replace s [o] new.
Proof.
  intros Hnew. unfold str.replace.
  induction s as [|x s IH]; cbn [str.replace_from]; [apply not_elem_of_nil|].
  cbn [str.startswith length Nat.sub].
  replace (str.startswith s []) with true by (by destruct s).
  rewrite andb_true_r.
  destruct (N.eqb_spec o x) as [<-|Hne].
  - intros [H|H]%elem_of_app; [by apply Hnew|by apply IH].
  - intros [->|H]%elem_of_cons; [done|by apply IH].
Qed.

Lemma replace_absent o old new s :
  o ∉ s -> str.replace s (o :: old) new = s.
Proof.
  unfold str.replace. induction s as [|c s IH]; [done|]. intros Hc.
  apply not_elem_of_cons in Hc as [Hne Hs].
  cbn [str.replace_from str.startswith].
  rewrite (proj2 (N.eqb_neq o c)) by done. cbn [andb]. by rewrite IH.
Qed.

(** X10. No caret reaches the parser: the text that [evaluate] and
    [safe_eval] hand to [ast.parse] holds no [^], so that the operator is
    always read as a power and never as the exclusive or that both
    whitelists admit. *)
Theorem normalize_leaves_no_caret (expr : pystr) :
  (0x5E%N ∉ SafeEvaluator.normalize expr)
  /\ (0x5E%N ∉ Reservation.normalize expr).
Proof.
  split.
  - unfold SafeEvaluator.normalize. intros H.
    apply replace_elements in H as [H|H]; [| |by vm_compute].
    + revert H. change (py "^") with [0x5E%N]. apply replace_one_removes.
      apply (bool_decide_eq_false_1 _). by vm_compute.
    + revert H. apply (bool_decide_eq_false_1 _). by vm_compute.
  - unfold Reservation.normalize. change (py "^") with [0x5E%N].
    apply replace_one_removes. apply (bool_decide_eq_false_1 _). by vm_compute.
Qed.

Example evaluate_caret_is_power libm :
  SafeEvaluator.evaluate cpython.parse libm (py "6^2") = Return (VInt 36)
  /\ Reservation.safe_eval cpython.parse libm (py "6^2") = Return (VInt 36).
Proof. split; by vm_compute. Qed.

(** ** Names after the validation *)

Lemma bind_no_name_error {A B} (m : outcome A) (f : A -> outcome B) :
  is_name_error m = false -> (forall a, is_name_error (f a) = false) ->
  is_name_error (m ≫= f) = false.
Proof. destruct m as [a|e|]; simpl; auto. Qed.

Ltac split_matches :=
  repeat match goal with
         | |- context [match ?x with _ => _ end] => destruct x; simpl
         end; try done.

(** No operation of the host that the model describes raises a
    [NameError]. *)
Lemma pow_no_name_error libm a b : is_name_error (pyfloat.pow libm a b) = false.
Proof. unfold pyfloat.pow. split_matches. Qed.

Lemma of_int_no_name_error n : is_name_error (pyfloat.of_int n) = false.
Proof. unfold pyfloat.of_int. split_matches. Qed.

Lemma as_double_no_name_error v : is_name_error (as_double v) = false.
Proof. destruct v; simpl; try done. apply of_int_no_name_error. Qed.

Lemma as_complex_no_name_error v : is_name_error (as_complex v) = false.
Proof.
  destruct v; simpl; try done.
  apply bind_no_name_error; [apply of_int_no_name_error|done].
Qed.

Lemma binop_no_name_error libm op a b :
  is_name_error (binop libm op a b) = false.
Proof.
  assert (Hint : forall x y, is_name_error (int_binop op x y) = false).
  { intros x y. unfold int_binop, pyint.true_divide. split_matches. }
  assert (Hfloat : forall x y, is_name_error (float_binop libm op x y) = false).
  { intros x y. unfold float_binop. destruct op; split_matches.
    apply pow_no_name_error. }
  assert (Hcomplex : forall x y, is_name_error (complex_binop op x y) = false).
  { intros [??] [??]. unfold complex_binop. split_matches. }
  assert (Hgen : is_name_error
            (if negb (is_number a && is_number b) then OutsideModel
             else if is_complex a || is_complex b
             then x ← as_complex a; y ← as_complex b; complex_binop op x y
             else x ← as_double a; y ← as_double b; float_binop libm op x y)
            = false).
  { destruct (negb _); [done|]. destruct (_ || _).
    - apply bind_no_name_error; [apply as_complex_no_name_error|intros x].
      apply bind_no_name_error; [apply as_complex_no_name_error|done].
    - apply bind_no_name_error; [apply as_double_no_name_error|intros x].
      apply bind_no_name_error; [apply as_double_no_name_error|done]. }
  unfold binop. destruct a, b; try exact Hgen. apply Hint.
Qed.

Lemma unop_no_name_error op a : is_name_error (unop op a) = false.
Proof. unfold unop. split_matches. Qed.

Lemma seq_item_no_name_error {A} (items : list A) i :
  is_name_error (seq_item items i) = false.
Proof. unfold seq_item. split_matches. Qed.

Lemma getitem_no_name_error c i : is_name_error (getitem c i) = false.
Proof.
  unfold getitem. destruct c, i; try done; try apply seq_item_no_name_error.
  apply bind_no_name_error; [apply seq_item_no_name_error|done].
Qed.

Lemma factorial_int_no_name_error n :
  is_name_error (math.factorial_int n) = false.
Proof. unfold math.factorial_int. split_matches. Qed.

Lemma call_no_name_error libm f args : is_name_error (call libm f args) = false.
Proof.
  unfold call. destruct f as [| | | | | |[name| | | | |]|]; try done.
  - destruct (bool_decide _).
    { unfold math.sqrt. destruct args as [|v [|]]; try done.
      apply bind_no_name_error; [apply as_double_no_name_error|intros x].
      split_matches. }
    destruct (bool_decide _); [|done].
    unfold math.factorial.
    destruct args as [|[] [|]]; try done;
      try apply factorial_int_no_name_error.
    destruct (pyfloat.is_integer x); [apply factorial_int_no_name_error|done].
  - unfold builtins.abs. split_matches.
  - unfold builtins.round. split_matches.
  - unfold builtins.pow. destruct args as [|a [|b [|c [|]]]]; try done.
    apply binop_no_name_error.
  - unfold builtins.extremum. split_matches.
  - unfold builtins.extremum. split_matches.
Qed.

Lemma finish_no_name_error v : is_name_error (SafeEvaluator.finish v) = false.
Proof. unfold SafeEvaluator.finish. split_matches. Qed.

Section resolved.
Variable libm : Libm.
Variable locals : gmap pystr value.

Lemma names_resolve_child n c :
  c ∈ iter_child_nodes n -> names_resolve locals n -> names_resolve locals c.
Proof. intros Hc Hn id ctx Hd. apply (Hn id ctx). by eapply descends_child. Qed.

Ltac resolve_child Hn :=
  eapply names_resolve_child; [|exact Hn]; cbn [iter_child_nodes];
  solve [ repeat first [ apply elem_of_cons; left; reflexivity
                       | apply elem_of_cons; right ] ].

Lemma eval_exprs_no_name_error es :
  Forall (fun e => names_resolve locals (EXPR e) ->
                   is_name_error (eval_expr libm locals e) = false) es ->
  Forall (fun e => names_resolve locals (EXPR e)) es ->
  is_name_error (eval_exprs libm locals es) = false.
Proof.
  induction 1 as [|e es He _ IH]; intros Hn; [done|].
  apply Forall_cons in Hn as [Hne Hn]. cbn [eval_exprs].
  apply bind_no_name_error; [by apply He|intros v].
  apply bind_no_name_error; [by apply IH|done].
Qed.

(** When every name of an expression is a key of the locals, its
    evaluation does not end with a [NameError]. *)
Lemma eval_expr_no_name_error e :
  names_resolve locals (EXPR e) ->
  is_name_error (eval_expr libm locals e) = false.
Proof.
  induction e as [v|id ctx|l op r IHl IHr|op operand IH|func args IHf IHa
                 |v attr ctx IH|v slice ctx IHv IHs|elts ctx IH|elts ctx IH]
    using expr_induction; intros Hn.
  - done.
  - destruct ctx; try done. cbn [eval_expr]. unfold load_name.
    destruct (Hn id Load (descends_here _)) as [v ->]. done.
  - cbn [eval_expr].
    apply bind_no_name_error; [apply IHl; resolve_child Hn|intros a].
    apply bind_no_name_error; [apply IHr; resolve_child Hn|intros b].
    apply binop_no_name_error.
  - cbn [eval_expr].
    apply bind_no_name_error; [apply IH; resolve_child Hn|intros a].
    apply unop_no_name_error.
  - change (eval_expr libm locals (Call func args))
      with (f ← eval_expr libm locals func; vs ← eval_exprs libm locals args;
            call libm f vs).
    apply bind_no_name_error; [apply IHf; resolve_child Hn|intros f].
    apply bind_no_name_error; [|intros vs; apply call_no_name_error].
    apply eval_exprs_no_name_error; [done|].
    apply Forall_forall. intros a Ha.
    apply (names_resolve_child (EXPR (Call func args))); [|done].
    cbn [iter_child_nodes]. apply elem_of_cons. right.
    by apply list_elem_of_fmap_2.
  - cbn [eval_expr].
    apply bind_no_name_error; [apply IH; resolve_child Hn|done].
  - destruct ctx; try done. cbn [eval_expr].
    apply bind_no_name_error; [apply IHv; resolve_child Hn|intros c].
    apply bind_no_name_error; [apply IHs; resolve_child Hn|intros i].
    apply getitem_no_name_error.
  - destruct ctx; try done.
    change (eval_expr libm locals (Tuple elts Load))
      with (vs ← eval_exprs libm locals elts; Return (VTuple vs)).
    apply bind_no_name_error; [|done].
    apply eval_exprs_no_name_error; [done|].
    apply Forall_forall. intros a Ha.
    apply (names_resolve_child (EXPR (Tuple elts Load))); [|done].
    cbn [iter_child_nodes]. apply elem_of_app. left.
    by apply list_elem_of_fmap_2.
  - destruct ctx; try done.
    change (eval_expr libm locals (List elts Load))
      with (vs ← eval_exprs libm locals elts; Return (VList vs)).
    apply bind_no_name_error; [|done].
    apply eval_exprs_no_name_error; [done|].
    apply Forall_forall. intros a Ha.
    apply (names_resolve_child (EXPR (List elts Load))); [|done].
    cbn [iter_child_nodes]. apply elem_of_app. left.
    by apply list_elem_of_fmap_2.
Qed.
End resolved.

(** X11. The validation makes every name resolve: on an input that the
    parser accepts, [evaluate] never ends with the host's [NameError].  A
    name outside the table is refused by the validation loop, and after the
    loop every name that the evaluation looks up is a key of the table. *)
Theorem evaluate_never_raises_name_error
  (ast_parse : pystr -> outcome ast_mod) (libm : Libm)
  (expr : pystr) (tree : ast_mod) :
  str.strip expr <> [] ->
  ast_parse (SafeEvaluator.normalize (str.strip expr)) = Return tree ->
  is_name_error (SafeEvaluator.evaluate ast_parse libm expr) = false.
Proof.
  intros Hs Hp. rewrite (evaluate_parsed _ _ _ _ Hs Hp).
  destruct (check_cases (walk (MOD tree))) as [Hok|[[c Hc]|[id Hid]]].
  - rewrite Hok. cbn [mbind outcome_bind].
    apply bind_no_name_error; [|apply finish_no_name_error].
    destruct tree as [body]. cbn [eval].
    apply eval_expr_no_name_error. intros id ctx Hd.
    refine (proj2 (check_passed _ (EXPR (Name id ctx)) Hok _) id ctx eq_refl).
    apply walk_complete. eapply descends_child; [|exact Hd].
    apply elem_of_cons. by left.
  - by rewrite Hc.
  - by rewrite Hid.
Qed.

Lemma evaluate_never_raises_name_error_witness :
  is_name_error
    (SafeEvaluator.evaluate cpython.parse libm_const (py "abs(pi)/0"))
  = false.
Proof.
  apply (evaluate_never_raises_name_error cpython.parse libm_const
           (py "abs(pi)/0")
           (Expression
              (BinOp (Call (Name (py "abs") Load) [Name (py "pi") Load])
                 Div (Constant (VInt 0))))); by vm_compute.
Defined.

Example evaluate_resolved_names libm :
  SafeEvaluator.evaluate cpython.parse libm (py "abs(pi)/0")
  = Raise ZeroDivisionError.
Proof. by vm_compute. Qed.

(** ** The calculator frame *)

(** X12. A failed evaluation changes the result line only: when
    [SafeEvaluator.evaluate] raises on the expression of the frame,
    [evaluate] shows [Error], reports the exception in one message box, and
    leaves the expression, the memory, the last answer, the history and its
    panel as they were; nothing is saved. *)
Theorem calculator_failure_keeps_history
  (ast_parse : pystr -> outcome ast_mod) (libm : Libm) (now : pystr)
  (self : CalculatorFrame.t) (e : exn) :
  str.strip (CalculatorFrame.expression_var self) <> [] ->
  SafeEvaluator.evaluate ast_parse libm (CalculatorFrame.expression_var self)
  = Raise e ->
  CalculatorFrame.evaluate ast_parse libm now self
  = Return ({| CalculatorFrame.expression_var :=
                 CalculatorFrame.expression_var self;
               CalculatorFrame.result_var := py "Error";
               CalculatorFrame.memory := CalculatorFrame.memory self;
               CalculatorFrame.last_answer := CalculatorFrame.last_answer self;
               CalculatorFrame.history_manager :=
                 CalculatorFrame.history_manager self;
               CalculatorFrame.history_text :=
                 CalculatorFrame.history_text self |},
            [CalculatorFrame.showerror (py "Calculation Error") (exn_str e)]).
Proof.
  intros Hs He. unfold CalculatorFrame.evaluate.
  rewrite bool_decide_eq_false_2 by done.
  by rewrite evaluate_strip, He.
Qed.

Lemma calculator_failure_keeps_history_witness :
  CalculatorFrame.evaluate cpython.parse libm_const
    (py "2024-01-01T10:00:00")
    {| CalculatorFrame.expression_var := py " foo(1) ";
       CalculatorFrame.result_var := py "0";
       CalculatorFrame.memory := 0%float;
       CalculatorFrame.last_answer := VFloat 0%float;
       CalculatorFrame.history_manager :=
         {| HistoryManager.filename := py "calc_history.json";
            HistoryManager.history := [];
            HistoryManager.max_history := 100 |};
       CalculatorFrame.history_text := [] |}
  = Return ({| CalculatorFrame.expression_var := py " foo(1) ";
               CalculatorFrame.result_var := py "Error";
               CalculatorFrame.memory := 0%float;
               CalculatorFrame.last_answer := VFloat 0%float;
               CalculatorFrame.history_manager :=
                 {| HistoryManager.filename := py "calc_history.json";
                    HistoryManager.history := [];
                    HistoryManager.max_history := 100 |};
               CalculatorFrame.history_text := [] |},
            [CalculatorFrame.showerror (py "Calculation Error")
               (exn_str (UnknownName (py "foo")))]).
Proof.
  apply (calculator_failure_keeps_history cpython.parse libm_const
           (py "2024-01-01T10:00:00")
           {| CalculatorFrame.expression_var := py " foo(1) ";
              CalculatorFrame.result_var := py "0";
              CalculatorFrame.memory := 0%float;
              CalculatorFrame.last_answer := VFloat 0%float;
              CalculatorFrame.history_manager :=
                {| HistoryManager.filename := py "calc_history.json";
                   HistoryManager.history := [];
                   HistoryManager.max_history := 100 |};
              CalculatorFrame.history_text := [] |}
           (UnknownName (py "foo"))); by vm_compute.
Defined.

(** On blank text the frame does nothing, so that the evaluator's own
    refusal of an empty expression is never shown. *)
Example calculator_blank libm now self :
  str.strip (CalculatorFrame.expression_var self) = [] ->
  CalculatorFrame.evaluate cpython.parse libm now self = Return (self, []).
Proof.
  intros Hs. unfold CalculatorFrame.evaluate.
  by rewrite bool_decide_eq_true_2 by done.
Qed.



(** ** The converter of the older variant *)






Lemma int_bad_first_digit b c ds :
  2 <= b <= 16 ->
  Forall (fun c => is_digit_of b c = true) ds ->
  (exists d, pytext.digit_value c = Some d /\ b <= d) ->
  ((0x80 <=? c) || (c =? 0x5F) || str.isspace c)%N = false ->
  (c =? 0x2D)%N = false -> (c =? 0x2B)%N = false -> (c =? 0x30)%N = false ->
  pytext.int (c :: ds) b = Raise IntInvalidLiteral.
Proof.
  intros Hb Hd (d & Hc & Hd') Hplain Hminus Hplus Hzero.
  unfold pytext.int. cbn [existsb].
  rewrite Hplain, (digits_plain b ltac:(lia) ds Hd). cbn [orb].
  rewrite Hminus, Hplus. unfold pytext.unsigned_int.
  rewrite bool_decide_eq_false_2 by done.
  replace (match c :: ds with
           | zero :: c0 :: _ => (zero =? 0x30)%N && pytext.is_base_prefix b c0
           | _ => false
           end) with false
    by (destruct ds; [done|]; by rewrite Hzero).
  cbn [pytext.digits_value]. rewrite Hc.
  by rewrite (proj2 (Z.ltb_ge d b)) by lia.
Qed.

(** X15. In the older variant a negative number has no readable rendering
    in base two, sixteen or eight: [from_decimal] cuts two code points off
    the host's text, which removes the sign and leaves the letter of the
    prefix, and [to_decimal] refuses the text that results. *)
Theorem from_decimal_negative_unreadable (n : Z) (sys : pystr) :
  n < 0 -> sys ∈ [py "Binary"; py "Hexadecimal"; py "Octal"] ->
  exists s,
    Reservation.from_decimal n sys = Return s
    /\ Reservation.to_decimal s sys = Raise IntInvalidLiteral.
Proof.
  intros Hn Hsys. unfold Reservation.from_decimal, Reservation.to_decimal.
  unfold pytext.bin, pytext.oct, pytext.hex, pytext.render.
  rewrite (proj2 (Z.ltb_lt n 0)) by lia.
  assert (Habs : 0 <= Z.abs n) by lia.
  apply elem_of_cons in Hsys as [->|Hsys];
    [|apply elem_of_cons in Hsys as [->|Hsys];
      [|apply elem_of_cons in Hsys as [->|Hsys];
        [|by apply elem_of_nil in Hsys]]];
    rewrite ?bool_decide_eq_false_2 by (by vm_compute);
    rewrite !bool_decide_eq_true_2 by done; eexists; (split; [done|]).
  - destruct (digits_spec 2 ltac:(lia) ltac:(lia) _ Habs) as (_ & Hd & _).
    apply int_bad_first_digit; try done. exists 11. by split.
  - destruct (digits_spec 16 ltac:(lia) ltac:(lia) _ Habs) as (_ & Hd & _).
    destruct (upper_digits 16 ltac:(lia) _ Hd) as [Hu _].
    apply (int_bad_first_digit 16 0x58%N); try done. exists 33. by split.
  - destruct (digits_spec 8 ltac:(lia) ltac:(lia) _ Habs) as (_ & Hd & _).
    apply int_bad_first_digit; try done. exists 24. by split.
Qed.

Lemma from_decimal_negative_unreadable_witness :
  exists s,
    Reservation.from_decimal (-5) (py "Binary") = Return s
    /\ Reservation.to_decimal s (py "Binary") = Raise IntInvalidLiteral.
Proof.
  apply (from_decimal_negative_unreadable (-5) (py "Binary")); [lia|].
  apply elem_of_cons. by left.
Defined.



(** On a signed entry the two differ. *)
Example converters_differ :
  NumberConverter.convert (py "-5") (py "Decimal") (py "Binary")
  = Return (py "-101")
  /\ ReservationConverterFrame.convert
       {| ReservationConverterFrame.input_var := py "-5";
          ReservationConverterFrame.result_var := [];
          ReservationConverterFrame.from_var := py "Decimal";
          ReservationConverterFrame.to_var := py "Binary" |}
     = Return {| ReservationConverterFrame.input_var := py "-5";
                 ReservationConverterFrame.result_var := py "b101";
                 ReservationConverterFrame.from_var := py "Decimal";
                 ReservationConverterFrame.to_var := py "Binary" |}.
Proof. split; by vm_compute. Qed.

(** ** The two evaluators *)

Lemma normalize_plain expr :
  Forall (fun c => c ∉ glyph_code_points) expr ->
  SafeEvaluator.normalize expr = str.replace expr (py "^") (py "**")
  /\ Reservation.normalize expr = str.replace expr (py "^") (py "**").
Proof.
  intros Hp.
  assert (Hno : forall g, g ∈ glyph_code_points -> g ∉ expr).
  { intros g Hg Hin. by apply (proj1 (list.Forall_forall _ _) Hp g Hin). }
  assert (HC3 : 0xC3%N ∈ glyph_code_points) by (apply elem_of_cons; by left).
  assert (HCF : 0xCF%N ∈ glyph_code_points).
  { apply elem_of_cons; right. apply elem_of_cons; by left. }
  assert (HD7 : 0xD7%N ∈ glyph_code_points).
  { do 2 (apply elem_of_cons; right). apply elem_of_cons; by left. }
  assert (HF7 : 0xF7%N ∈ glyph_code_points).
  { do 3 (apply elem_of_cons; right). apply elem_of_cons; by left. }
  unfold SafeEvaluator.normalize, Reservation.normalize. split.
  - change (py "Ã—") with [0xC3; 0x2014]%N.
    change (py "Ã·") with [0xC3; 0xB7]%N.
    change (py "Ï€") with [0xCF; 0x20AC]%N.
    rewrite (replace_absent 0xC3%N [0x2014%N]) by by apply Hno.
    rewrite (replace_absent 0xC3%N [0xB7%N]) by by apply Hno.
    apply replace_absent. intros Hin.
    apply replace_elements in Hin as [Hin|Hin]; [| |by vm_compute].
    + revert Hin. by apply Hno.
    + revert Hin. apply (bool_decide_eq_false_1 _). by vm_compute.
  - change (py "×") with [0xD7]%N. change (py "÷") with [0xF7]%N.
    rewrite (replace_absent 0xD7%N) by by apply Hno.
    by rewrite (replace_absent 0xF7%N) by by apply Hno.
Qed.

Lemma allowed_names_agree id :
  id ∉ [py "min"; py "max"] ->
  Reservation.ALLOWED_NAMES !! id = SafeEvaluator.ALLOWED_NAMES !! id.
Proof.
  intros H.
  assert (Hmin : id <> py "min").
  { intros ->. apply H. apply elem_of_cons. by left. }
  assert (Hmax : id <> py "max").
  { intros ->. apply H. apply elem_of_cons. right. apply elem_of_cons.
    by left. }
  unfold Reservation.ALLOWED_NAMES, SafeEvaluator.ALLOWED_NAMES, dict_update.
  rewrite !lookup_union. f_equal. cbn [list_to_map foldr].
  destruct (decide (id = py "abs")) as [->|?];
    [by rewrite !lookup_insert_eq
    |rewrite !(lookup_insert_ne _ (py "abs")) by done].
  destruct (decide (id = py "round")) as [->|?];
    [by rewrite !lookup_insert_eq
    |rewrite !(lookup_insert_ne _ (py "round")) by done].
  destruct (decide (id = py "pow")) as [->|?];
    [by rewrite !lookup_insert_eq
    |rewrite !(lookup_insert_ne _ (py "pow")) by done].
  destruct (decide (id = py "factorial")) as [->|?];
    [by rewrite !lookup_insert_eq
    |rewrite !(lookup_insert_ne _ (py "factorial")) by done].
  by rewrite !lookup_insert_ne, !lookup_empty by done.
Qed.

Lemma allowed_nodes_included n :
  isinstance n SafeEvaluator.ALLOWED_NODES = true ->
  isinstance n Reservation.ALLOWED_NODES = true.
Proof.
  unfold isinstance. intros H%bool_decide_eq_true. apply bool_decide_eq_true.
  unfold SafeEvaluator.ALLOWED_NODES in H.
  repeat (apply elem_of_cons in H as [->|H];
          [apply (bool_decide_unpack _); by vm_compute|]).
  by apply elem_of_nil in H.
Qed.

(** What the validation of [Main.py] lets pass, the older validation lets
    pass too, except for the names [min] and [max]. *)
Lemma check_older nodes :
  SafeEvaluator.check nodes = Return tt ->
  existsb (mentions [py "min"; py "max"]) nodes = false ->
  Reservation.check nodes = Return tt.
Proof.
  induction nodes as [|n nodes IH]; [done|].
  cbn [SafeEvaluator.check Reservation.check existsb].
  intros Hc [Hm Hrest]%orb_false_elim.
  destruct (isinstance n SafeEvaluator.ALLOWED_NODES) eqn:Hi; [|done].
  rewrite (allowed_nodes_included n Hi). cbn [negb] in *.
  destruct n as [m|e| | |]; try by apply IH.
  destruct e; try by apply IH.
  cbn [mentions] in Hm. apply bool_decide_eq_false in Hm.
  rewrite (allowed_names_agree id Hm).
  destruct (SafeEvaluator.ALLOWED_NAMES !! id); [by apply IH|done].
Qed.

Section locals.
Variable libm : Libm.
Variables locals1 locals2 : gmap pystr value.

Lemma names_agree_child n c :
  c ∈ iter_child_nodes n ->
  names_agree locals1 locals2 n -> names_agree locals1 locals2 c.
Proof. intros Hc Hn id ctx Hd. apply (Hn id ctx). by eapply descends_child. Qed.

Ltac agree_child Hn :=
  eapply names_agree_child; [|exact Hn]; cbn [iter_child_nodes];
  solve [ repeat first [ apply elem_of_cons; left; reflexivity
                       | apply elem_of_cons; right ] ].

Lemma eval_exprs_agree es :
  Forall (fun e => names_agree locals1 locals2 (EXPR e) ->
                   eval_expr libm locals1 e = eval_expr libm locals2 e) es ->
  Forall (fun e => names_agree locals1 locals2 (EXPR e)) es ->
  eval_exprs libm locals1 es = eval_exprs libm locals2 es.
Proof.
  induction 1 as [|e es He _ IH]; intros Hn; [done|].
  apply Forall_cons in Hn as [Hne Hn]. cbn [eval_exprs].
  by rewrite He, IH.
Qed.

(** The evaluation depends on the table through the names of the
    expression only. *)
Lemma eval_expr_agree e :
  names_agree locals1 locals2 (EXPR e) ->
  eval_expr libm locals1 e = eval_expr libm locals2 e.
Proof.
  induction e as [v|id ctx|l op r IHl IHr|op operand IH|func args IHf IHa
                 |v attr ctx IH|v slice ctx IHv IHs|elts ctx IH|elts ctx IH]
    using expr_induction; intros Hn.
  - done.
  - destruct ctx; try done. cbn [eval_expr]. unfold load_name.
    by rewrite (Hn id Load (descends_here _)).
  - cbn [eval_expr]. rewrite IHl, IHr; [done|agree_child Hn..].
  - cbn [eval_expr]. rewrite IH; [done|agree_child Hn].
  - change (eval_expr libm ?l (Call func args))
      with (f ← eval_expr libm l func; vs ← eval_exprs libm l args;
            call libm f vs).
    rewrite IHf by agree_child Hn. rewrite (eval_exprs_agree args); [done..|].
    apply Forall_forall. intros a Ha.
    apply (names_agree_child (EXPR (Call func args))); [|done].
    cbn [iter_child_nodes]. apply elem_of_cons. right.
    by apply list_elem_of_fmap_2.
  - cbn [eval_expr]. rewrite IH; [done|agree_child Hn].
  - destruct ctx; try done. cbn [eval_expr].
    rewrite IHv, IHs; [done|agree_child Hn..].
  - destruct ctx; try done.
    change (eval_expr libm ?l (Tuple elts Load))
      with (vs ← eval_exprs libm l elts; Return (VTuple vs)).
    rewrite (eval_exprs_agree elts); [done..|].
    apply Forall_forall. intros a Ha.
    apply (names_agree_child (EXPR (Tuple elts Load))); [|done].
    cbn [iter_child_nodes]. apply elem_of_app. left.
    by apply list_elem_of_fmap_2.
  - destruct ctx; try done.
    change (eval_expr libm ?l (List elts Load))
      with (vs ← eval_exprs libm l elts; Return (VList vs)).
    rewrite (eval_exprs_agree elts); [done..|].
    apply Forall_forall. intros a Ha.
    apply (names_agree_child (EXPR (List elts Load))); [|done].
    cbn [iter_child_nodes]. apply elem_of_app. left.
    by apply list_elem_of_fmap_2.
Qed.
End locals.

Lemma existsb_false_elem {A} (f : A -> bool) l x :
  existsb f l = false -> x ∈ l -> f x = false.
Proof.
  induction l as [|a l IH]; cbn [existsb]; intros H Hx;
    [by apply elem_of_nil in Hx|].
  apply orb_false_elim in H as [Ha Hl].
  apply elem_of_cons in Hx as [->|Hx]; auto.
Qed.

(** X17. The two evaluators agree up to the treatment of complex results:
    on a text without surrounding white space that holds none of the code
    points of the alias literals, whose tree passes the validation of
    [Main.py] and names neither [min] nor [max], [evaluate] returns what
    [safe_eval] returns, passed through the complex check of lines 70 to
    75. *)
Theorem evaluators_agree
  (ast_parse : pystr -> outcome ast_mod) (libm : Libm)
  (expr : pystr) (tree : ast_mod) :
  expr <> [] -> str.strip expr = expr ->
  Forall (fun c => c ∉ glyph_code_points) expr ->
  ast_parse (str.replace expr (py "^") (py "**")) = Return tree ->
  SafeEvaluator.check (walk (MOD tree)) = Return tt ->
  existsb (mentions [py "min"; py "max"]) (walk (MOD tree)) = false ->
  SafeEvaluator.evaluate ast_parse libm expr
  = Reservation.safe_eval ast_parse libm expr ≫= SafeEvaluator.finish.
Proof.
  intros Hne Hs Hplain Hp Hc Hm.
  destruct (normalize_plain expr Hplain) as [Hmain Holder].
  rewrite (evaluate_parsed ast_parse libm expr tree);
    [|by rewrite Hs|by rewrite Hs, Hmain].
  unfold Reservation.safe_eval. rewrite Holder, Hp, Hc.
  rewrite (check_older _ Hc Hm). cbn [mbind outcome_bind].
  destruct tree as [body]. cbn [eval].
  rewrite (eval_expr_agree libm Reservation.ALLOWED_NAMES
             SafeEvaluator.ALLOWED_NAMES body); [done|].
  intros id ctx Hd.
  assert (Hin : EXPR (Name id ctx) ∈ walk (MOD (Expression body))).
  { apply walk_complete. eapply descends_child; [|exact Hd].
    apply elem_of_cons. by left. }
  pose proof (existsb_false_elem _ _ _ Hm Hin) as Hn.
  cbn [mentions] in Hn. apply bool_decide_eq_false in Hn.
  by apply allowed_names_agree.
Qed.

Lemma evaluators_agree_witness :
  SafeEvaluator.evaluate cpython.parse libm_const (py "2^3+abs(-1)")
  = Reservation.safe_eval cpython.parse libm_const (py "2^3+abs(-1)")
    ≫= SafeEvaluator.finish.
Proof.
  eapply (evaluators_agree cpython.parse libm_const (py "2^3+abs(-1)")).
  - done.
  - by vm_compute.
  - apply list.Forall_forall. intros c Hc. apply (bool_decide_eq_false_1 _).
    revert c Hc. apply list.Forall_forall. repeat constructor.
  - by vm_compute.
  - by vm_compute.
  - by vm_compute.
Defined.

Example evaluators_agree_value libm :
  SafeEvaluator.evaluate cpython.parse libm (py "2^3+abs(-1)")
  = Return (VInt 9).
Proof. by vm_compute. Qed.

(** ** Which refusal is reported *)

Lemma check_passed_tail n nodes :
  SafeEvaluator.check (n :: nodes) = Return tt ->
  SafeEvaluator.check nodes = Return tt
  /\ forall rest, SafeEvaluator.check (n :: rest) = SafeEvaluator.check rest.
Proof.
  cbn [SafeEvaluator.check].
  destruct (isinstance n SafeEvaluator.ALLOWED_NODES); [|done]. cbn [negb].
  destruct n as [m|e| | |]; try done.
  destruct e; try done.
  by destruct (SafeEvaluator.ALLOWED_NAMES !! id).
Qed.

Lemma check_refused_head n e rest :
  SafeEvaluator.check [n] = Raise e ->
  SafeEvaluator.check (n :: rest) = Raise e.
Proof.
  cbn [SafeEvaluator.check].
  destruct (isinstance n SafeEvaluator.ALLOWED_NODES); [|done]. cbn [negb].
  destruct n as [m|x| | |]; try done.
  destruct x; try done.
  by destruct (SafeEvaluator.ALLOWED_NAMES !! id).
Qed.

Lemma check_first_refusal before n rest e :
  SafeEvaluator.check before = Return tt ->
  SafeEvaluator.check [n] = Raise e ->
  SafeEvaluator.check (before ++ n :: rest) = Raise e.
Proof.
  intros Hb Hn. induction before as [|m before IH]; cbn [app].
  - by apply check_refused_head.
  - destruct (check_passed_tail m before Hb) as [Hb' Hm].
    rewrite Hm. by apply IH.
Qed.

(** X18. Of several refusals, [evaluate] reports the first in the order
    of [ast.walk]: when the nodes that the walk yields before a node all
    pass and the node itself is refused, the error of [evaluate] is the
    refusal of this node, whatever follows it.  The walk is breadth first,
    so a refusal nearer to the root wins over one further to the left. *)
Theorem evaluate_reports_first_refusal
  (ast_parse : pystr -> outcome ast_mod) (libm : Libm)
  (expr : pystr) (tree : ast_mod) (before rest : list node) (n : node)
  (e : exn) :
  str.strip expr <> [] ->
  ast_parse (SafeEvaluator.normalize (str.strip expr)) = Return tree ->
  walk (MOD tree) = before ++ n :: rest ->
  SafeEvaluator.check before = Return tt ->
  SafeEvaluator.check [n] = Raise e ->
  SafeEvaluator.evaluate ast_parse libm expr = Raise e.
Proof.
  intros Hs Hp Hw Hb Hn. rewrite (evaluate_parsed _ _ _ _ Hs Hp), Hw.
  by rewrite (check_first_refusal before n rest e Hb Hn).
Qed.

Lemma evaluate_reports_first_refusal_witness :
  SafeEvaluator.evaluate cpython.parse libm_const (py "foo(1)+os.x")
  = Raise (UnsupportedOperation ast.Attribute).
Proof.
  pose (call := Call (Name (py "foo") Load) [Constant (VInt 1)]).
  pose (attribute := Attribute (Name (py "os") Load) (py "x") Load).
  eapply (evaluate_reports_first_refusal cpython.parse libm_const
            (py "foo(1)+os.x") _
            [ MOD (Expression (BinOp call Add attribute));
              EXPR (BinOp call Add attribute); EXPR call; OP Add ]
            _ (EXPR attribute)); by vm_compute.
Defined.

(** In [foo(1)+os.x] the unknown name [foo] stands to the left of the
    attribute access but one level deeper: the attribute is reported. *)
Example evaluate_attribute_before_name libm :
  SafeEvaluator.evaluate cpython.parse libm (py "foo(1)+os.x")
  = Raise (UnsupportedOperation ast.Attribute)
  /\ SafeEvaluator.evaluate cpython.parse libm (py "foo(1)+2")
     = Raise (UnknownName (py "foo")).
Proof. split; by vm_compute. Qed.
